(** * Edge rendering strategies of aves (src/aves/visualization/networks/edges.py)

    A shallow embedding of the [prepare_data] methods of the four edge
    strategies ([PlainEdges], [WeightedEdges], [CommunityGradient],
    [ODGradient]) together with the part of [WeightedEdges.render] that
    selects the lines of one bin.

    Conventions of the embedding:
    - edge weights and bin boundaries are float64 numbers, Rocq's primitive
      binary64 floats, which compute as numpy's do (IEEE 754, rounding to
      nearest even), NaN and infinities included;
    - coordinates are exact rationals ([Q]); the rounding of the resampled
      points of ODGradient is not modelled, and equalities between computed
      coordinates are stated up to [Qeq];
    - a method is a function from the instance to the instance after the call
      and the outcome of the call (returned or raised), so that the state an
      exception leaves behind is visible;
    - numpy and pandas are outside the repository: [linspace], [linspace64],
      [searchsorted_left] and [pd_cut] follow their documented behaviour and
      the arithmetic of their implementation. *)

From Stdlib Require Import QArith Qminmax Qabs Lqa ZArith List String Lia.
From Stdlib Require Import Floats Uint63.
From stdpp Require Import base option list gmap strings pretty sorting.

Local Open Scope Z_scope.

(** ** Python values the code dispatches on *)

Inductive pyclass :=
  | cls_list | cls_ndarray | cls_str | cls_int | cls_float | cls_NoneType.

(** What a Python name such as [list], [np.ndarray] or [np.array] denotes:
    a class, or a function.  [np.array] is numpy's array factory, a builtin
    function, and not a class. *)
Inductive pyobj :=
  | Class (c : pyclass)
  | BuiltinFunction (qualname : string).

#[global] Instance pyclass_eq_dec : EqDecision pyclass.
Proof. solve_decision. Defined.
#[global] Instance pyobj_eq_dec : EqDecision pyobj.
Proof. solve_decision. Defined.

Definition py_list : pyobj := Class cls_list.
Definition np_ndarray : pyobj := Class cls_ndarray.
Definition np_array : pyobj := BuiltinFunction "numpy.array".

(** [a == b] on classes and functions is object identity. *)
Definition py_eq (a b : pyobj) : bool := bool_decide (a = b).

(** [x in (a, b)] *)
Definition py_in (x : pyobj) (t : list pyobj) : bool := existsb (py_eq x) t.

Definition class_name (c : pyclass) : string :=
  match c with
  | cls_list => "list"
  | cls_ndarray => "numpy.ndarray"
  | cls_str => "str"
  | cls_int => "int"
  | cls_float => "float"
  | cls_NoneType => "NoneType"
  end.

(** [str(type(x))], as the f-string of line 204 formats it. *)
Definition class_repr (c : pyclass) : string :=
  "<class '" +:+ class_name c +:+ "'>".

(** ** Exceptions and outcomes *)

Inductive exn :=
  | Exception (msg : string)
  | ValueError (msg : string)
  | TypeError (msg : string)
  | IndexError (msg : string)
  | KeyError (msg : string)
  | AttributeError (msg : string).

Inductive outcome (A : Type) :=
  | Returned (a : A)
  | Raised (e : exn).
Arguments Returned {A} a.
Arguments Raised {A} e.

(** A method body: it reads and updates the instance [S] and either returns
    or raises; the instance as it is at the raise is kept. *)
Definition Py (S A : Type) : Type := S → S * outcome A.

Definition ret {S A} (a : A) : Py S A := λ s, (s, Returned a).
Definition raise {S A} (e : exn) : Py S A := λ s, (s, Raised e).
Definition bind {S A B} (m : Py S A) (f : A → Py S B) : Py S B :=
  λ s, match m s with
       | (s', Returned a) => f a s'
       | (s', Raised e) => (s', Raised e)
       end.
Definition get {S} : Py S S := λ s, (s, Returned s).
Definition modify {S} (f : S → S) : Py S unit := λ s, (f s, Returned tt).
Definition lift {S A} (o : outcome A) : Py S A := λ s, (s, o).

#[global] Instance Py_ret {S} : MRet (Py S) := λ A, ret.
#[global] Instance Py_bind {S} : MBind (Py S) := λ A B f m, bind m f.

(** Library calls that only return or raise. *)
#[global] Instance outcome_ret : MRet outcome := λ A, Returned.
#[global] Instance outcome_bind : MBind outcome :=
  λ A B f m, match m with Returned a => f a | Raised e => Raised e end.

(** [for x in xs: body(x)] *)
Fixpoint for_each {S A} (body : A → Py S unit) (xs : list A) : Py S unit :=
  match xs with
  | [] => ret tt
  | x :: xs' => body x ;; for_each body xs'
  end.

(** ** float64 *)

(** numpy's float64: IEEE 754 binary64.  The operations of [PrimFloat]
    round to nearest even, as the processor does for numpy; comparisons with
    NaN are false. *)
Abbreviation float64 := PrimFloat.float.

(** [float(n)] for an integer [0 <= n < 2^63]; exact up to [2^53]. *)
Definition float_of_Z (n : Z) : float64 := PrimFloat.of_uint63 (Uint63.of_Z n).

(** The double nearest to 0.001, the constant pandas writes [0.001]. *)
Definition one_per_mille : float64 := 0x1.0624dd2f1a9fcp-10%float.

(** ** Geometry, edges, network *)

(** A 2D coordinate, [np.array([x, y])]. *)
Definition point : Type := Q * Q.

Definition point_scale (p : point) (t : Q) : point := (p.1 * t, p.2 * t)%Q.
Definition point_add (p q : point) : point := (p.1 + q.1, p.2 + q.2)%Q.

(** The [points] attribute of an edge is a Python list of coordinates (as
    the edge is created) or a numpy array of them (after bundling). *)
Inductive geometry :=
  | PointList (pts : list point)
  | PointArray (pts : list point).

Definition coords (g : geometry) : list point :=
  match g with PointList pts | PointArray pts => pts end.

Definition type_of_geometry (g : geometry) : pyobj :=
  match g with
  | PointList _ => Class cls_list
  | PointArray _ => Class cls_ndarray
  end.

(** [len(points)] and [points.shape[0]] *)
Definition n_rows (g : geometry) : Z := Z.of_nat (length (coords g)).

Record Edge := mkEdge {
  source : point;
  target : point;
  index_pair : Z * Z;
  points : geometry;
}.

(** Modelled from the spec: the Network class (aves/models/network.py) is
    not part of the sources at hand.  It owns the edge collection and the
    named edge properties; [betweenness_values] stands for the edge
    centrality that the fallback computation yields for this graph. *)
Record Network := mkNetwork {
  edge_data : list Edge;
  edge_properties : gmap string (list float64);
  betweenness_values : list float64;
}.

(** Modelled from the spec: [Network.estimate_betweenness] computes the
    betweenness of the edges and stores it as the edge property
    "betweenness". *)
Definition estimate_betweenness (n : Network) : Network :=
  {| edge_data := edge_data n;
     edge_properties := <["betweenness" := betweenness_values n]> (edge_properties n);
     betweenness_values := betweenness_values n |}.

(** Modelled from the spec: ColoredCurveCollection
    (aves/visualization/collections.py) accumulates curves, each with a
    weight; [add_curve] appends one. *)
Record ColoredCurveCollection := mkCCC {
  curves : list geometry;
  curve_weights : list Z;
}.

Definition ColoredCurveCollection_init : ColoredCurveCollection :=
  {| curves := []; curve_weights := [] |}.

Definition add_curve (c : ColoredCurveCollection) (g : geometry) (w : Z)
  : ColoredCurveCollection :=
  {| curves := curves c ++ [g]; curve_weights := curve_weights c ++ [w] |}.

(** ** numpy.linspace *)

(** [np.linspace(start, stop, num=num, endpoint=True)]:
    [y = arange(0, num)], [step = delta / div] with [div = num - 1],
    [y = y * step + start] (or [y * delta + start] when [div = 0]), and the
    last sample is set to [stop] when [num > 1]. *)
Definition linspace (start stop : Q) (num : Z) : outcome (list Q) :=
  if num <? 0 then
    Raised (ValueError ("Number of samples, " +:+ pretty num +:+ ", must be non-negative."))
  else
    let div := num - 1 in
    let delta := (stop - start)%Q in
    let y := (λ i : nat, inject_Z (Z.of_nat i)) <$> seq 0 (Z.to_nat num) in
    let y := if 0 <? div
             then (λ v, v * (delta / inject_Z div) + start)%Q <$> y
             else (λ v, v * delta + start)%Q <$> y in
    Returned (if 1 <? num then <[pred (length y) := stop]> y else y).

(** The same function on float64, operation by operation, with the branch
    numpy takes when the step underflows to zero:
    [y = arange(0, num)]; [step = delta / div]; [y = y / div * delta] when
    [step == 0], else [y = y * step]; [y += start]; [y[-1] = stop]. *)
Definition linspace64 (start stop : float64) (num : Z) : outcome (list float64) :=
  if num <? 0 then
    Raised (ValueError ("Number of samples, " +:+ pretty num +:+ ", must be non-negative."))
  else
    let div := num - 1 in
    let delta := (stop - start)%float in
    let y := (λ i : nat, float_of_Z (Z.of_nat i)) <$> seq 0 (Z.to_nat num) in
    let y := if 0 <? div then
               let step := (delta / float_of_Z div)%float in
               if PrimFloat.eqb step 0%float
               then (λ v, v / float_of_Z div * delta)%float <$> y
               else (λ v, v * step)%float <$> y
             else (λ v, v * delta)%float <$> y in
    let y := (λ v, v + start)%float <$> y in
    Returned (if 1 <? num then <[pred (length y) := stop]> y else y).

(** The [lines] attribute of PlainEdges and WeightedEdges: [None] after
    construction, a Python list while the edges are collected, an array with
    one row per collected geometry after [np.array(self.lines)]. *)
Inductive lines_attr :=
  | NoLines
  | LineList (l : list geometry)
  | LineArray (rows : list (list point)).

(** [self.lines.append(g)] *)
Definition lines_append (g : geometry) (a : lines_attr) : outcome lines_attr :=
  match a with
  | LineList l => Returned (LineList (l ++ [g]))
  | NoLines => Raised (AttributeError "'NoneType' object has no attribute 'append'")
  | LineArray _ => Raised (AttributeError "'numpy.ndarray' object has no attribute 'append'")
  end.

(** [np.array(self.lines)]: one row per element of the list (the method
    always calls it on the list it has just filled). *)
Definition lines_to_array (a : lines_attr) : lines_attr :=
  match a with
  | LineList l => LineArray (coords <$> l)
  | NoLines => NoLines
  | LineArray rows => LineArray rows
  end.

(** [len(self.lines)] once prepared *)
Definition lines_count (a : lines_attr) : nat :=
  match a with
  | NoLines => 0
  | LineList l => length l
  | LineArray rows => length rows
  end.

(** ** Drawing: keyword arguments, line collections, axes *)

(** A colour as seaborn's palettes give it. *)
Definition rgb : Type := Q * Q * Q.

(** The value of a keyword argument of [render]. *)
Inductive kwarg :=
  | KNone
  | KStr (s : string)
  | KNum (x : Q)
  | KRgb (c : rgb).

(** What a step of [render] gives: a value, or the exception it raises. *)
Inductive result (A : Type) :=
  | Ok (a : A)
  | Err (e : exn).
Arguments Ok {A} a.
Arguments Err {A} e.

#[global] Instance result_ret : MRet result := λ A, Ok.
#[global] Instance result_bind : MBind result :=
  λ A B f m, match m with Ok a => f a | Err e => Err e end.

(** [kwargs.pop(key, default)]: the value and the dictionary without the key. *)
Definition kwargs_pop (key : string) (dflt : kwarg) (kwargs : gmap string kwarg)
  : kwarg * gmap string kwarg :=
  (default dflt (kwargs !! key), delete key kwargs).

(** The keywords a call [f(..., name=value, ..., **kwargs)] passes on: a
    name given both explicitly and in [kwargs] is a TypeError of the call. *)
Definition call_keywords (callee : string) (explicit : list (string * kwarg))
    (kwargs : gmap string kwarg) : result (gmap string kwarg) :=
  match filter (λ kv, is_Some (kwargs !! kv.1)) explicit with
  | (key, _) :: _ =>
      Err (TypeError (callee +:+ "() got multiple values for keyword argument '"
                      +:+ key +:+ "'"))
  | [] => Ok (foldl (λ kw kv, <[kv.1 := kv.2]> kw) kwargs explicit)
  end.

(** matplotlib's LineCollection, as far as the strategies go: the segments
    and the keywords it is made with. *)
Record LineCollection := mkLineCollection {
  segments : lines_attr;
  keywords : gmap string kwarg;
}.

(** [a[i]] on a Python list, for [i >= 0]. *)
Definition list_getitem {A} (a : list A) (i : Z) : result A :=
  match (if 0 <=? i then a !! Z.to_nat i else None) with
  | Some x => Ok x
  | None => Err (IndexError "list index out of range")
  end.

(** [d[key]] on a dict *)
Definition dict_getitem `{Countable K} {V} (key_repr : K → string)
    (d : gmap K V) (key : K) : result V :=
  match d !! key with
  | Some v => Ok v
  | None => Err (KeyError (key_repr key))
  end.

(** [dict(pairs)]: a later pair with the same key replaces an earlier one. *)
Definition dict_of `{Countable K} {V} (pairs : list (K * V)) : gmap K V :=
  foldl (λ d kv, <[kv.1 := kv.2]> d) ∅ pairs.

(** [lines[mask]] with a boolean mask. *)
Definition bool_index (lines : lines_attr) (mask : list bool) : result (list (list point)) :=
  match lines with
  | NoLines => Err (TypeError "'NoneType' object is not subscriptable")
  | LineList _ =>
      Err (TypeError "only integer scalar arrays can be converted to a scalar index")
  | LineArray rows =>
      if bool_decide (length mask = length rows) then
        Ok ((zip rows mask) ≫= (λ '(r, b), if b : bool then [r] else []))
      else
        Err (IndexError
          ("boolean index did not match indexed array along axis 0; size of axis is "
           +:+ pretty (length rows) +:+ " but size of corresponding boolean axis is "
           +:+ pretty (length mask)))
  end.

(** seaborn's palette functions, which [render] calls with the colour or the
    palette name and [n_colors]: they are parameters of the embedding. *)
Record Seaborn := mkSeaborn {
  dark_palette : kwarg → Z → result (list rgb);
  color_palette : kwarg → Z → result (list rgb);
}.

(** ** PlainEdges *)

Module PlainEdges.

Record t := mk {
  network : Network;
  data : list Edge;
  lines : lines_attr;
}.

Definition __init__ (net : Network) : t :=
  {| network := net; data := edge_data net; lines := NoLines |}.

Definition set_lines (a : lines_attr) (self : t) : t :=
  {| network := network self; data := data self; lines := a |}.

Definition append_line (g : geometry) : Py t unit :=
  self ← get ;
  a ← lift (lines_append g (lines self)) ;
  modify (set_lines a).

Definition prepare_data : Py t unit :=
  modify (set_lines (LineList [])) ;;
  self ← get ;
  for_each (λ edge, append_line (points edge)) (data self) ;;
  modify (λ self, set_lines (lines_to_array (lines self)) self).

(** The defaults of the parameters of [render]. *)
Definition default_color : kwarg := KStr "#abacab".
Definition default_linewidth : kwarg := KNum 1.
Definition default_linestyle : kwarg := KStr "solid".
Definition default_alpha : kwarg := KNum (3 # 4).

(** [render(ax, color, linewidth, linestyle, alpha, **kwargs)]: the axes are
    the list of the collections added to them; the collection is returned. *)
Definition render (self : t) (ax : list LineCollection)
    (color linewidth linestyle alpha : kwarg) (kwargs : gmap string kwarg)
  : list LineCollection * result LineCollection :=
  match call_keywords "LineCollection"
          [("color", color); ("linewidths", linewidth);
           ("linestyle", linestyle); ("alpha", alpha)] kwargs with
  | Err e => (ax, Err e)
  | Ok kw =>
      let collection := {| segments := lines self; keywords := kw |} in
      (ax ++ [collection], Ok collection)
  end.

Definition name : string := "plain".

End PlainEdges.

(** ** pandas.cut with an integer number of bins *)

(** The values [weights] can hold: [None], a name, an array of float64, an
    array of strings (an array that is not numeric), the zero-dimensional
    array [np.array(None)], a Python list, an int, a float. *)
Inductive pyvalue :=
  | PyNone
  | PyStr (s : string)
  | PyNdarray (a : list float64)
  | PyNdarrayStr (a : list string)
  | PyNdarray0d
  | PyList (l : list float64)
  | PyInt (n : Z)
  | PyFloat (x : float64).

Definition class_of (v : pyvalue) : pyclass :=
  match v with
  | PyNone => cls_NoneType
  | PyStr _ => cls_str
  | PyNdarray _ | PyNdarrayStr _ | PyNdarray0d => cls_ndarray
  | PyList _ => cls_list
  | PyInt _ => cls_int
  | PyFloat _ => cls_float
  end.

(** [type(v)] *)
Definition type_of (v : pyvalue) : pyobj := Class (class_of v).

(** [v is not None] *)
Definition is_not_None (v : pyvalue) : bool :=
  match v with PyNone => false | _ => true end.

(** The least and the greatest of two values, NaN being skipped. *)
Definition nan_min (a b : float64) : float64 :=
  if PrimFloat.is_nan a then b
  else if PrimFloat.is_nan b then a
  else if PrimFloat.ltb b a then b else a.
Definition nan_max (a b : float64) : float64 :=
  if PrimFloat.is_nan a then b
  else if PrimFloat.is_nan b then a
  else if PrimFloat.ltb a b then b else a.

(** [x.min()], [x.max()] of a non-empty array as pandas takes them (NaN
    skipped; NaN when there is nothing else). *)
Definition array_min (x0 : float64) (xs : list float64) : float64 := foldl nan_min x0 xs.
Definition array_max (x0 : float64) (xs : list float64) : float64 := foldl nan_max x0 xs.

(** numpy's order on float64 for sorting and searching: NaN comes last. *)
Definition np_lt (a b : float64) : bool :=
  PrimFloat.ltb a b || (PrimFloat.is_nan b && negb (PrimFloat.is_nan a)).

(** [a.searchsorted(v, side='left')]: the first index [i] at which
    [a[i] < v] fails, or [len(a)]; it is the index numpy's bisection finds
    in a sorted array, which is what pandas hands it. *)
Fixpoint searchsorted_left (a : list float64) (v : float64) : nat :=
  match a with
  | [] => 0%nat
  | b :: a' => if np_lt b v then S (searchsorted_left a' v) else 0%nat
  end.

(** Two floats that [unique] takes for one value. *)
Definition same_value (x y : float64) : bool :=
  (PrimFloat.is_nan x && PrimFloat.is_nan y) || PrimFloat.eqb x y.

(** [len(unique(bins)) < len(bins)] *)
Fixpoint has_duplicates (l : list float64) : bool :=
  match l with
  | [] => false
  | x :: l' => existsb (same_value x) l' || has_duplicates l'
  end.

(** [0.001 * abs(m) if m != 0 else 0.001] *)
Definition widen_margin (m : float64) : float64 :=
  if negb (PrimFloat.eqb m 0%float) then (one_per_mille * PrimFloat.abs m)%float
  else one_per_mille.

(** pandas [_nbins_to_bins] with [right=True]: [nbins + 1] evenly spaced
    edges over the range of the data; the lowest edge is moved down by 0.1%
    of the range so that the minimum falls in the first bin, and a range of
    one single value is widened by 0.1% of that value on each side.  Data
    with an infinite minimum or maximum are refused. *)
Definition nbins_to_bins (x : list float64) (nbins : Z) : outcome (list float64) :=
  if nbins <? 1 then Raised (ValueError "`bins` should be a positive integer.")
  else
    match x with
    | [] => Raised (ValueError "Cannot cut empty array")
    | x0 :: xs =>
        let mn := array_min x0 xs in
        let mx := array_max x0 xs in
        if PrimFloat.is_infinity mn || PrimFloat.is_infinity mx then
          Raised (ValueError
                    "cannot specify integer `bins` when input data contains infinity")
        else if PrimFloat.eqb mn mx then
          let mn' := (mn - widen_margin mn)%float in
          let mx' := (mx + widen_margin mx)%float in
          linspace64 mn' mx' (nbins + 1)
        else
          bins ← linspace64 mn mx (nbins + 1) ;
          let adj := ((mx - mn) * one_per_mille)%float in
          Returned (alter (λ b, b - adj)%float 0%nat bins)
    end.

(** pandas [_bins_to_cuts] with [labels=False], for one value: the bin of a
    value is its insertion index minus one; a NaN and a value outside all
    bins get NaN, which is [None] here. *)
Definition bin_of (bins : list float64) (v : float64) : option Z :=
  let ids := searchsorted_left bins v in
  if PrimFloat.is_nan v || bool_decide (ids = length bins) || bool_decide (ids = 0%nat)
  then None
  else Some (Z.of_nat ids - 1).

(** The message of the ValueError goes on with the edges themselves, which
    are left out here. *)
Definition bins_to_cuts (x : list float64) (bins : list float64)
  : outcome (list (option Z) * list float64) :=
  if has_duplicates bins && negb (bool_decide (length bins = 2%nat)) then
    Raised (ValueError "Bin edges must be unique")
  else
    Returned (bin_of bins <$> x, bins).

(** [pd.cut(x, bins, labels=False, retbins=True)] for an integer [bins].
    What is not one-dimensional ([None], a scalar, [np.array(None)]) is
    refused.  A one-dimensional array of strings gets as far as the
    arithmetic on its minimum and maximum, which raises a TypeError (its
    message varies with the operation that meets the strings first). *)
Definition pd_cut (x : pyvalue) (nbins : Z) : outcome (list (option Z) * list float64) :=
  match x with
  | PyNdarray a | PyList a =>
      bins ← nbins_to_bins a nbins ;
      bins_to_cuts a bins
  | PyNdarrayStr a =>
      if nbins <? 1 then Raised (ValueError "`bins` should be a positive integer.")
      else
        match a with
        | [] => Raised (ValueError "Cannot cut empty array")
        | _ :: _ =>
            Raised (TypeError "ufunc 'multiply' did not contain a loop with signature matching types")
        end
  | PyNone | PyStr _ | PyInt _ | PyFloat _ | PyNdarray0d =>
      Raised (ValueError "Input array must be 1 dimensional")
  end.

(** ** WeightedEdges *)

Module WeightedEdges.

Record t := mk {
  network : Network;
  data : list Edge;
  k : Z;
  bins : option (list float64);
  weights : pyvalue;
  lines : lines_attr;
  line_groups : option (list (option Z));
}.

Definition __init__ (net : Network) (w : pyvalue) (k0 : Z) : t :=
  {| network := net; data := edge_data net; k := k0; bins := None;
     weights := w; lines := NoLines; line_groups := None |}.

Definition set_lines (a : lines_attr) (self : t) : t :=
  {| network := network self; data := data self; k := k self; bins := bins self;
     weights := weights self; lines := a; line_groups := line_groups self |}.

Definition set_network (n : Network) (self : t) : t :=
  {| network := n; data := data self; k := k self; bins := bins self;
     weights := weights self; lines := lines self; line_groups := line_groups self |}.

Definition set_bins (b : list float64) (self : t) : t :=
  {| network := network self; data := data self; k := k self; bins := Some b;
     weights := weights self; lines := lines self; line_groups := line_groups self |}.

Definition set_line_groups (g : list (option Z)) (self : t) : t :=
  {| network := network self; data := data self; k := k self; bins := bins self;
     weights := weights self; lines := lines self; line_groups := Some g |}.

Definition set_weights (w : pyvalue) (self : t) : t :=
  {| network := network self; data := data self; k := k self; bins := bins self;
     weights := w; lines := lines self; line_groups := line_groups self |}.

Definition append_line (g : geometry) : Py t unit :=
  self ← get ;
  a ← lift (lines_append g (lines self)) ;
  modify (set_lines a).

(** Lines 194-201: a weight given by name is read from the edge
    properties of the graph. *)
Definition resolve_weights (weights : pyvalue) : Py t pyvalue :=
  match weights with
  | PyStr name =>
      self ← get ;
      (if bool_decide (edge_properties (network self) !! name = None) then
         if String.eqb name "betweenness" then
           modify (λ self, set_network (estimate_betweenness (network self)) self)
         else
           raise (Exception "weights must be a valid edge property if str")
       else ret tt) ;;
      self ← get ;
      match edge_properties (network self) !! name with
      | Some a => ret (PyNdarray a)
      | None => raise (KeyError name)
      end
  | _ => ret weights
  end.

(** Lines 185-190 *)
Definition collect_lines : Py t unit :=
  modify (set_lines (LineList [])) ;;
  self ← get ;
  for_each (λ edge, append_line (points edge)) (data self) ;;
  modify (λ self, set_lines (lines_to_array (lines self)) self).

(** Lines 192-210 *)
Definition cut_weights : Py t unit :=
  self ← get ;
  weights ← resolve_weights (weights self) ;
  (if is_not_None weights && negb (py_in (type_of weights) [np_array; np_ndarray]) then
     raise (ValueError ("weights must be np.array instead of "
                        +:+ class_repr (class_of weights) +:+ "."))
   else ret tt) ;;
  self ← get ;
  '(groups, bins) ← lift (pd_cut weights (k self)) ;
  modify (set_bins bins) ;;
  modify (set_line_groups groups).

Definition prepare_data : Py t unit :=
  collect_lines ;; cut_weights.

(** [self.line_groups == i] in [render]: the mask of the edges of bin [i]. *)
Definition group_mask (groups : list (option Z)) (i : Z) : list bool :=
  (λ g, bool_decide (g = Some i)) <$> groups.

(** [self.lines[mask]]: the rows at the positions the mask selects. *)
Definition mask_select {A} (rows : list A) (mask : list bool) : list A :=
  (zip rows mask) ≫= (λ '(r, b), if b : bool then [r] else []).

(** The positions of the edges that [render] draws in the batch of bin [i]. *)
Definition bin_members (groups : list (option Z)) (i : Z) : list nat :=
  mask_select (seq 0 (length groups)) (group_mask groups i).

(** Lines 233-242 of [render]: the colours of the bins and the keywords
    left for the collections. *)
Definition edge_colors (sns : Seaborn) (self : t) (kwargs : gmap string kwarg)
  : result (list rgb * gmap string kwarg) :=
  let '(palette, kwargs) := kwargs_pop "palette" KNone kwargs in
  match palette with
  | KNone =>
      let '(color, kwargs) := kwargs_pop "color" (KStr "#a7a7a7") kwargs in
      colors ← dark_palette sns color (k self) ;
      mret (reverse colors, kwargs)
  | _ =>
      colors ← color_palette sns palette (k self) ;
      mret (colors, kwargs)
  end.

(** Lines 246-252: the collection of bin [i]. *)
Definition group_collection (self : t) (colors : list rgb)
    (kwargs : gmap string kwarg) (i : Z) : result LineCollection :=
  groups ← match line_groups self with
           | Some g => Ok g
           | None => Err (AttributeError
                       "'WeightedEdges' object has no attribute 'line_groups'")
           end ;
  coll_lines ← bool_index (lines self) (group_mask groups i) ;
  color ← list_getitem colors i ;
  kw ← call_keywords "LineCollection" [("color", KRgb color)] kwargs ;
  mret {| segments := LineArray coll_lines; keywords := kw |}.

(** Lines 244-255: the loop over the bins; [ax] and [results] grow by the
    collection of each bin. *)
Fixpoint render_groups (self : t) (colors : list rgb) (kwargs : gmap string kwarg)
    (bins_range : list Z) (ax results : list LineCollection)
  : list LineCollection * result (list LineCollection) :=
  match bins_range with
  | [] => (ax, Ok results)
  | i :: rest =>
      match group_collection self colors kwargs i with
      | Err e => (ax, Err e)
      | Ok coll => render_groups self colors kwargs rest (ax ++ [coll]) (results ++ [coll])
      end
  end.

(** [range(k)] *)
Definition range (n : Z) : list Z := Z.of_nat <$> seq 0 (Z.to_nat n).

(** [render(ax, *args, **kwargs)] *)
Definition render (sns : Seaborn) (self : t) (ax : list LineCollection)
    (kwargs : gmap string kwarg)
  : list LineCollection * result (list LineCollection) :=
  match edge_colors sns self kwargs with
  | Err e => (ax, Err e)
  | Ok (colors, kwargs) => render_groups self colors kwargs (range (k self)) ax []
  end.

Definition name : string := "weighted".

End WeightedEdges.

(** ** CommunityGradient *)

(** [a[i]] on a numpy array: a negative index counts from the end. *)
Definition np_getitem {A} (a : list A) (i : Z) : outcome A :=
  let n := Z.of_nat (length a) in
  let j := if i <? 0 then i + n else i in
  match (if (0 <=? j) && (j <? n) then a !! Z.to_nat j else None) with
  | Some x => Returned x
  | None =>
      Raised (IndexError ("index " +:+ pretty i +:+ " is out of bounds for axis 0 with size "
                          +:+ pretty n))
  end.

Module CommunityGradient.
Section Labels.
Context {L : Type} `{Countable L}.

(** [community_links] is a [defaultdict(ColoredCurveCollection)]: a map
    from ordered pairs of labels to collections, a missing key standing for
    a collection still to be created.  [community_ids] is read by [render]
    only and is left out. *)
Record t := mk {
  network : Network;
  data : list Edge;
  node_communities : list L;
  community_links : gmap (L * L) ColoredCurveCollection;
}.

Definition __init__ (net : Network) (communities : list L) : t :=
  {| network := net; data := edge_data net; node_communities := communities;
     community_links := ∅ |}.

(** [self.community_links[pair].add_curve(g, w)]: the collection under
    [pair], created empty when the key is new, gets one more curve. *)
Definition add_to_links (pair : L * L) (g : geometry) (w : Z) (self : t) : t :=
  {| network := network self; data := data self;
     node_communities := node_communities self;
     community_links :=
       <[pair := add_curve (default ColoredCurveCollection_init
                              (community_links self !! pair)) g w]>
         (community_links self) |}.

Definition links_add_curve (pair : L * L) (g : geometry) (w : Z) : Py t unit :=
  modify (add_to_links pair g w).

(** Lines 309-312: the ordered pair of the communities of the two ends. *)
Definition edge_pair (communities : list L) (edge_data : Edge) : outcome (L * L) :=
  a ← np_getitem communities (index_pair edge_data).1 ;
  b ← np_getitem communities (index_pair edge_data).2 ;
  mret (a, b).

Definition prepare_data : Py t unit :=
  self ← get ;
  for_each (λ edge_data,
      self ← get ;
      pair ← lift (edge_pair (node_communities self) edge_data) ;
      links_add_curve pair (points edge_data) 1)
    (data self).

(** The number of curves accumulated under a key. *)
Definition curve_count (self : t) (pair : L * L) : nat :=
  match community_links self !! pair with
  | Some c => length (curves c)
  | None => 0%nat
  end.

(** The number of curves accumulated under all keys. *)
Definition total_curves (self : t) : nat :=
  map_fold (λ _ c n, (length (curves c) + n)%nat) 0%nat (community_links self).

(** The ordered community pair of an edge, when both of its node indices
    are valid. *)
Definition community_pair (communities : list L) (e : Edge) : option (L * L) :=
  match edge_pair communities e with
  | Returned ab => Some ab
  | Raised _ => None
  end.

End Labels.
Arguments t L {_ _}.

Section Colours.
Context {L : Type} `{Countable L}.
Context (le : relation L) `{!∀ x y, Decision (le x y)}.

(** cytoolz's [unique]: the items in the order of their first occurrence. *)
Fixpoint unique_from (seen : gset L) (items : list L) : list L :=
  match items with
  | [] => []
  | x :: rest =>
      if decide (x ∈ seen) then unique_from seen rest
      else x :: unique_from ({[x]} ∪ seen) rest
  end.
Definition unique (items : list L) : list L := unique_from ∅ items.

(** Line 300: [sorted(unique(node_communities))], for labels ordered by [le]. *)
Definition community_ids (communities : list L) : list L :=
  merge_sort le (unique communities).

(** Lines 334-341 of [render]: [dict(zip(community_ids, palette))]. *)
Definition community_colors (ids : list L) (palette : list rgb) : gmap L rgb :=
  dict_of (zip ids palette).

(** Lines 344-346: the two colours of a group,
    [community_colors[pair[0]]] and [community_colors[pair[1]]]. *)
Definition pair_colors (label_repr : L → string) (colors : gmap L rgb) (pair : L * L)
  : result (rgb * rgb) :=
  c_source ← dict_getitem label_repr colors pair.1 ;
  c_target ← dict_getitem label_repr colors pair.2 ;
  mret (c_source, c_target).

End Colours.

Definition name : string := "community-gradient".

End CommunityGradient.

(** ** ODGradient *)

Module ODGradient.

Record t := mk {
  network : Network;
  data : list Edge;
  n_points : Z;
  colored_curves : ColoredCurveCollection;
}.

Definition __init__ (net : Network) (n : Z) : t :=
  {| network := net; data := edge_data net; n_points := n;
     colored_curves := ColoredCurveCollection_init |}.

(** [np.array([source * (1 - t) + target * t for t in interp])] *)
Definition interpolate (e : Edge) (interp : list Q) : geometry :=
  PointArray
    ((λ t, point_add (point_scale (source e) (1 - t)) (point_scale (target e) t))
       <$> interp).

(** Lines 393-408: the curve of one edge. *)
Definition edge_curve (interp : list Q) (e : Edge) : geometry :=
  if py_eq (type_of_geometry (points e)) py_list && (n_rows (points e) =? 2) then
    interpolate e interp
  else if py_eq (type_of_geometry (points e)) np_array && (n_rows (points e) =? 2) then
    interpolate e interp
  else
    points e.

Definition set_colored_curves (c : ColoredCurveCollection) (self : t) : t :=
  {| network := network self; data := data self; n_points := n_points self;
     colored_curves := c |}.

(** [self.colored_curves.add_curve(g, 1)] *)
Definition curves_add (g : geometry) : Py t unit :=
  modify (λ self, set_colored_curves (add_curve (colored_curves self) g 1) self).

Definition prepare_data : Py t unit :=
  self ← get ;
  interp ← lift (linspace 0 1 (n_points self)) ;
  for_each (λ edge_data, curves_add (edge_curve interp edge_data)) (data self).

Definition name : string := "origin-destination".

End ODGradient.

(** * Statements *)

(** What lines 206-210 do once the weights are resolved to [w]. *)
Definition WeightedEdges_record (w : pyvalue) (self : WeightedEdges.t)
  : WeightedEdges.t * outcome unit :=
  match pd_cut w (WeightedEdges.k self) with
  | Returned (groups, bins) =>
      (WeightedEdges.set_line_groups groups (WeightedEdges.set_bins bins self), Returned tt)
  | Raised e => (self, Raised e)
  end.

(** Sample [i] of [np.linspace(lo, hi, k + 1)] before the last one is set:
    [i * step + lo] with [step = (hi - lo) / k], in float64 (and
    [i / k * (hi - lo) + lo] when the step underflows to zero). *)
Definition sample64 (lo hi : float64) (k : Z) (i : nat) : float64 :=
  let step := ((hi - lo) / float_of_Z k)%float in
  ((if PrimFloat.eqb step 0%float
    then float_of_Z (Z.of_nat i) / float_of_Z k * (hi - lo)
    else float_of_Z (Z.of_nat i) * step) + lo)%float.

(** The range that is cut and how far the lowest boundary is lowered: the
    least and the greatest weight and 0.1% of their distance; for weights
    that are all equal the single value widened by 0.1% of itself on each
    side (by 0.001 around zero), and no lowering. *)
Definition cut_range (x0 : float64) (xs : list float64) (lo hi : float64)
    (lowered : option float64) : Prop :=
  let mn := array_min x0 xs in
  let mx := array_max x0 xs in
  (PrimFloat.eqb mn mx = false →
     lo = mn ∧ hi = mx ∧ lowered = Some ((mx - mn) * one_per_mille)%float)
  ∧ (PrimFloat.eqb mn mx = true →
     lo = (mn - widen_margin mn)%float ∧ hi = (mx + widen_margin mx)%float
     ∧ lowered = None).

(** The [k + 1] boundaries over the range from [lo] to [hi]: the inner ones
    are the samples of [sample64], the last one is [hi] itself, the first
    one is sample 0 less the lowering. *)
Definition evenly_cut (bins : list float64) (lo hi : float64) (lowered : option float64)
    (k : Z) : Prop :=
  length bins = Z.to_nat (k + 1)
  ∧ bins !! 0%nat
    = Some (match lowered with
            | Some adj => (sample64 lo hi k 0 - adj)%float
            | None => sample64 lo hi k 0
            end)
  ∧ bins !! Z.to_nat k = Some hi
  ∧ ∀ i : nat, (1 ≤ i)%nat → Z.of_nat i < k → bins !! i = Some (sample64 lo hi k i).




(** A numeric array: an array of numbers. *)
Definition numeric_array (w : pyvalue) : Prop := ∃ a : list float64, w = PyNdarray a.

(** The message of the ValueError of line 204 for the value [w]. *)
Definition weights_type_message (w : pyvalue) : string :=
  "weights must be np.array instead of " +:+ class_repr (class_of w) +:+ ".".

(** The claim on the type of the weights, for an instance whose weights
    (given directly) are [w]: when [w] is present and no numeric array,
    [prepare_data] raises the error of line 204. *)
Definition weights_type_claim (self : WeightedEdges.t) (w : pyvalue) : Prop :=
  WeightedEdges.weights self = w →
  is_not_None w = true → ¬ numeric_array w →
  (WeightedEdges.prepare_data self).2 = Raised (ValueError (weights_type_message w)).

(** The label of a node: the entry of [node_communities] at the index of
    the node, an index below zero counting from the end as Python reads
    it. *)
Definition community_at {L : Type} (communities : list L) (node : Z) : option L :=
  let n := Z.of_nat (length communities) in
  if (0 <=? node) && (node <? n) then communities !! Z.to_nat node
  else if (- n <=? node) && (node <? 0) then communities !! Z.to_nat (node + n)
  else None.

(** The ordered pair of communities of an edge as the specification words
    it, (source community, target community): the label of the source node,
    then the label of the target node. *)
Definition ordered_pair {L : Type} (communities : list L) (e : Edge) : option (L * L) :=
  match community_at communities (index_pair e).1,
        community_at communities (index_pair e).2 with
  | Some src, Some tgt => Some (src, tgt)
  | _, _ => None
  end.

(** ** The scenarios of the specification *)

(** A straight edge from (0,0) to (10,0) between the nodes [i] and [j], with
    the geometry an edge has when it is created: the list of its two ends. *)
Definition straight_edge (i j : Z) : Edge :=
  {| source := (0, 0)%Q; target := (10 # 1, 0)%Q; index_pair := (i, j);
     points := PointList [(0, 0)%Q; (10 # 1, 0)%Q] |}.

(** Four edges, to be weighted 1, 2, 3, 4. *)
Definition four_edges : Network :=
  {| edge_data := [straight_edge 0 1; straight_edge 1 2; straight_edge 2 3; straight_edge 3 0];
     edge_properties := ∅; betweenness_values := [] |}.

(** The edges (0,1) and (1,0). *)
Definition two_way : Network :=
  {| edge_data := [straight_edge 0 1; straight_edge 1 0];
     edge_properties := ∅; betweenness_values := [] |}.



(** Two coordinates that denote the same point. *)
Definition point_eq (p q : point) : Prop := (p.1 == q.1)%Q ∧ (p.2 == q.2)%Q.

(** The collection with the curves [gs] added one after the other. *)
Definition add_curves (c : ColoredCurveCollection) (gs : list geometry)
  : ColoredCurveCollection :=
  foldl (λ c g, add_curve c g 1) c gs.

(** A bundled edge whose geometry is an array of just its two ends. *)
Definition array_segment : Edge :=
  {| source := (0, 0)%Q; target := (10 # 1, 0)%Q; index_pair := (0, 1);
     points := PointArray [(0, 0)%Q; (10 # 1, 0)%Q] |}.

Definition one_array_segment : Network :=
  {| edge_data := [array_segment]; edge_properties := ∅; betweenness_values := [] |}.

(** An edge with a curved geometry of three points, as a list. *)
Definition curved_edge : Edge :=
  {| source := (0, 0)%Q; target := (10 # 1, 0)%Q; index_pair := (0, 1);
     points := PointList [(0, 0)%Q; (5 # 1, 3 # 1)%Q; (10 # 1, 0)%Q] |}.

Definition straight_and_curved : Network :=
  {| edge_data := [straight_edge 0 1; curved_edge];
     edge_properties := ∅; betweenness_values := [] |}.

(** The four edges with a stored edge property "speed". *)
Definition four_edges_with_speed : Network :=
  {| edge_data := edge_data four_edges;
     edge_properties := {["speed" := [1; 2; 3; 4]%float]};
     betweenness_values := [3; 1; 1; 3]%float |}.

(** The claim that a raise of [WeightedEdges.prepare_data] leaves the
    prepared state as it was before the call. *)
Definition no_partial_state (self : WeightedEdges.t) : Prop :=
  ∀ (self' : WeightedEdges.t) (e : exn),
    WeightedEdges.prepare_data self = (self', Raised e) →
    WeightedEdges.lines self' = WeightedEdges.lines self
    ∧ WeightedEdges.bins self' = WeightedEdges.bins self
    ∧ WeightedEdges.line_groups self' = WeightedEdges.line_groups self.

(** The instance once lines 185-190 have collected the geometries. *)
Definition collected (self : WeightedEdges.t) : WeightedEdges.t :=
  WeightedEdges.set_lines
    (LineArray (coords <$> (points <$> WeightedEdges.data self))) self.

(** ** Further statements *)

(** The number of segments of a collection. *)
Definition segment_count (c : LineCollection) : nat := lines_count (segments c).

(** The collection [render] makes for bin [i]: the lines of the edges of the
    bin, in the colour of the bin. *)
Definition bin_batch (rows : list (list point)) (groups : list (option Z))
    (colors : list rgb) (kw : gmap string kwarg) (i : nat) : option LineCollection :=
  col ← colors !! i ;
  Some {| segments :=
            LineArray (WeightedEdges.mask_select rows
                         (WeightedEdges.group_mask groups (Z.of_nat i)));
          keywords := <["color" := KRgb col]> kw |}.

(** A seaborn that gives [n_colors] shades of grey, whatever it is asked. *)
Definition grey_seaborn : Seaborn :=
  {| dark_palette := λ _ n, Ok (replicate (Z.to_nat n) (1 # 2, 1 # 2, 1 # 2)%Q);
     color_palette := λ _ n, Ok (replicate (Z.to_nat n) (1 # 2, 1 # 2, 1 # 2)%Q) |}.

(** The curves held under a pair of communities, none for a pair that is
    no key. *)
Definition group_curves {L : Type} `{Countable L}
    (self : CommunityGradient.t L) (pair : L * L) : list geometry :=
  match CommunityGradient.community_links self !! pair with
  | Some c => curves c
  | None => []
  end.

(** The weights held under a pair of communities. *)
Definition group_weights {L : Type} `{Countable L}
    (self : CommunityGradient.t L) (pair : L * L) : list Z :=
  match CommunityGradient.community_links self !! pair with
  | Some c => curve_weights c
  | None => []
  end.

(** The edges that run from the first community of [pair] to the second,
    in edge order. *)
Definition edges_of_pair {L : Type} `{EqDecision L}
    (communities : list L) (pair : L * L) (es : list Edge) : list Edge :=
  filter (λ e, ordered_pair communities e = Some pair) es.

(** How far along the segment sample [i] out of [n] lies: [i / (n - 1)],
    and 0 for a single sample. *)
Definition sample_position (n : Z) (i : nat) : Q :=
  (inject_Z (Z.of_nat i) / inject_Z (Z.max 1 (n - 1)))%Q.

(** [source * (1 - t) + target * t] *)
Definition point_between (e : Edge) (t : Q) : point :=
  point_add (point_scale (source e) (1 - t)%Q) (point_scale (target e) t).

(** * Running a method body *)

Arguments pd_cut : simpl never.

Create HintDb py discriminated.
#[local] Hint Unfold mbind mret Py_bind Py_ret outcome_bind outcome_ret
  bind ret raise get modify lift : py.

Ltac py_unfold := repeat (progress (autounfold with py; simpl)).

Lemma for_each_app {S A} (body : A → Py S unit) (xs ys : list A) (s : S) :
  for_each body (xs ++ ys) s =
    match for_each body xs s with
    | (s', Returned _) => for_each body ys s'
    | (s', Raised e) => (s', Raised e)
    end.
Proof.
  revert s. induction xs as [|x xs IH]; intros s; simpl.
  - reflexivity.
  - py_unfold. destruct (body x s) as [s1 [[]|e]]; [apply IH | reflexivity].
Qed.

(** ** Collecting the lines (PlainEdges and WeightedEdges) *)

Lemma PlainEdges_collect (es : list Edge) (self : PlainEdges.t) (l0 : list geometry) :
  PlainEdges.lines self = LineList l0 →
  for_each (λ edge, PlainEdges.append_line (points edge)) es self =
    (PlainEdges.set_lines (LineList (l0 ++ (points <$> es))) self, Returned tt).
Proof.
  revert self l0. induction es as [|e es IH]; intros self l0 Hl.
  - simpl. rewrite app_nil_r, <- Hl. by destruct self.
  - simpl. unfold PlainEdges.append_line. py_unfold. rewrite Hl. simpl.
    rewrite (IH _ (l0 ++ [points e])) by reflexivity.
    simpl. by rewrite <- app_assoc.
Qed.

Lemma PlainEdges_prepare_data_eq (self : PlainEdges.t) :
  PlainEdges.prepare_data self =
    (PlainEdges.set_lines (LineArray (coords <$> (points <$> PlainEdges.data self))) self,
     Returned tt).
Proof.
  unfold PlainEdges.prepare_data. py_unfold.
  rewrite (PlainEdges_collect _ _ []) by reflexivity. reflexivity.
Qed.

Lemma WeightedEdges_collect (es : list Edge) (self : WeightedEdges.t) (l0 : list geometry) :
  WeightedEdges.lines self = LineList l0 →
  for_each (λ edge, WeightedEdges.append_line (points edge)) es self =
    (WeightedEdges.set_lines (LineList (l0 ++ (points <$> es))) self, Returned tt).
Proof.
  revert self l0. induction es as [|e es IH]; intros self l0 Hl.
  - simpl. rewrite app_nil_r, <- Hl. by destruct self.
  - simpl. unfold WeightedEdges.append_line. py_unfold. rewrite Hl. simpl.
    rewrite (IH _ (l0 ++ [points e])) by reflexivity.
    simpl. by rewrite <- app_assoc.
Qed.

(** The instance once lines 185-190 have run. *)
Lemma WeightedEdges_collect_lines_eq (self : WeightedEdges.t) :
  WeightedEdges.collect_lines self =
    (WeightedEdges.set_lines
       (LineArray (coords <$> (points <$> WeightedEdges.data self))) self,
     Returned tt).
Proof.
  unfold WeightedEdges.collect_lines. py_unfold.
  rewrite (WeightedEdges_collect _ _ []) by reflexivity. reflexivity.
Qed.

Lemma WeightedEdges_prepare_data_eq (self : WeightedEdges.t) :
  WeightedEdges.prepare_data self =
    WeightedEdges.cut_weights
      (WeightedEdges.set_lines
         (LineArray (coords <$> (points <$> WeightedEdges.data self))) self).
Proof.
  unfold WeightedEdges.prepare_data. py_unfold.
  by rewrite WeightedEdges_collect_lines_eq.
Qed.

(** ** The binning block of WeightedEdges, by the kind of [weights] *)

Lemma cut_weights_ndarray (self : WeightedEdges.t) (a : list float64) :
  WeightedEdges.weights self = PyNdarray a →
  WeightedEdges.cut_weights self = WeightedEdges_record (PyNdarray a) self.
Proof.
  intros Hw. unfold WeightedEdges.cut_weights, WeightedEdges_record. py_unfold.
  rewrite Hw. simpl.
  destruct (pd_cut (PyNdarray a) (WeightedEdges.k self)) as [[g b]|e]; reflexivity.
Qed.

Lemma cut_weights_string_array (self : WeightedEdges.t) (a : list string) :
  WeightedEdges.weights self = PyNdarrayStr a →
  WeightedEdges.cut_weights self = WeightedEdges_record (PyNdarrayStr a) self.
Proof.
  intros Hw. unfold WeightedEdges.cut_weights, WeightedEdges_record. py_unfold.
  rewrite Hw. simpl.
  destruct (pd_cut (PyNdarrayStr a) (WeightedEdges.k self)) as [[g b]|e]; reflexivity.
Qed.

Lemma cut_weights_0d (self : WeightedEdges.t) :
  WeightedEdges.weights self = PyNdarray0d →
  WeightedEdges.cut_weights self = WeightedEdges_record PyNdarray0d self.
Proof.
  intros Hw. unfold WeightedEdges.cut_weights, WeightedEdges_record. py_unfold.
  rewrite Hw. reflexivity.
Qed.

Lemma cut_weights_None (self : WeightedEdges.t) :
  WeightedEdges.weights self = PyNone →
  WeightedEdges.cut_weights self =
    (self, Raised (ValueError "Input array must be 1 dimensional")).
Proof.
  intros Hw. unfold WeightedEdges.cut_weights. py_unfold. rewrite Hw. reflexivity.
Qed.

Lemma cut_weights_not_array (self : WeightedEdges.t) (w : pyvalue) :
  WeightedEdges.weights self = w →
  class_of w ≠ cls_NoneType → class_of w ≠ cls_str → class_of w ≠ cls_ndarray →
  WeightedEdges.cut_weights self =
    (self, Raised (ValueError ("weights must be np.array instead of "
                               +:+ class_repr (class_of w) +:+ "."))).
Proof.
  intros Hw H1 H2 H3. unfold WeightedEdges.cut_weights. py_unfold. rewrite Hw.
  destruct w; simpl in *; try congruence; reflexivity.
Qed.

Lemma cut_weights_name_present (self : WeightedEdges.t) (name : string) (a : list float64) :
  WeightedEdges.weights self = PyStr name →
  edge_properties (WeightedEdges.network self) !! name = Some a →
  WeightedEdges.cut_weights self = WeightedEdges_record (PyNdarray a) self.
Proof.
  intros Hw Hp. unfold WeightedEdges.cut_weights, WeightedEdges_record. py_unfold.
  rewrite Hw. py_unfold. rewrite Hp.
  rewrite bool_decide_eq_false_2 by discriminate. py_unfold. rewrite Hp. py_unfold.
  destruct (pd_cut (PyNdarray a) (WeightedEdges.k self)) as [[g b]|e]; reflexivity.
Qed.

Lemma cut_weights_betweenness_absent (self : WeightedEdges.t) :
  WeightedEdges.weights self = PyStr "betweenness" →
  edge_properties (WeightedEdges.network self) !! "betweenness" = None →
  WeightedEdges.cut_weights self =
    WeightedEdges_record
      (PyNdarray (betweenness_values (WeightedEdges.network self)))
      (WeightedEdges.set_network (estimate_betweenness (WeightedEdges.network self)) self).
Proof.
  intros Hw Hp. unfold WeightedEdges.cut_weights, WeightedEdges_record. py_unfold.
  rewrite Hw. py_unfold. rewrite Hp.
  rewrite bool_decide_eq_true_2 by reflexivity. py_unfold.
  rewrite lookup_insert_eq. py_unfold.
  destruct (pd_cut _ (WeightedEdges.k self)) as [[g b]|e]; reflexivity.
Qed.

Lemma cut_weights_name_absent (self : WeightedEdges.t) (name : string) :
  WeightedEdges.weights self = PyStr name →
  edge_properties (WeightedEdges.network self) !! name = None →
  name ≠ "betweenness" →
  WeightedEdges.cut_weights self =
    (self, Raised (Exception "weights must be a valid edge property if str")).
Proof.
  intros Hw Hp Hn. unfold WeightedEdges.cut_weights. py_unfold.
  rewrite Hw. py_unfold. rewrite Hp.
  rewrite bool_decide_eq_true_2 by reflexivity.
  apply String.eqb_neq in Hn. rewrite Hn. reflexivity.
Qed.

Lemma WeightedEdges_record_raised (w : pyvalue) (s s' : WeightedEdges.t) (e : exn) :
  WeightedEdges_record w s = (s', Raised e) → s' = s.
Proof.
  unfold WeightedEdges_record.
  destruct (pd_cut w (WeightedEdges.k s)) as [[g b]|e']; intros [= H]; congruence.
Qed.

(** A raise of the binning block leaves every attribute but the network as
    it was: nothing of the binning has been recorded. *)
Lemma cut_weights_raised (s s' : WeightedEdges.t) (e : exn) :
  WeightedEdges.cut_weights s = (s', Raised e) →
  WeightedEdges.bins s' = WeightedEdges.bins s
  ∧ WeightedEdges.line_groups s' = WeightedEdges.line_groups s
  ∧ WeightedEdges.lines s' = WeightedEdges.lines s
  ∧ WeightedEdges.data s' = WeightedEdges.data s.
Proof.
  destruct (WeightedEdges.weights s) as [|name|a|sa| |l|n|x] eqn:Hw.
  - rewrite cut_weights_None by done. by intros [= <- _].
  - destruct (edge_properties (WeightedEdges.network s) !! name) as [a|] eqn:Hp.
    + rewrite (cut_weights_name_present _ _ _ Hw Hp).
      intros ->%WeightedEdges_record_raised. done.
    + destruct (decide (name = "betweenness")) as [->|Hn].
      * rewrite (cut_weights_betweenness_absent _ Hw Hp).
        intros ->%WeightedEdges_record_raised. done.
      * rewrite (cut_weights_name_absent _ _ Hw Hp Hn). by intros [= <- _].
  - rewrite (cut_weights_ndarray _ _ Hw). intros ->%WeightedEdges_record_raised. done.
  - rewrite (cut_weights_string_array _ _ Hw). intros ->%WeightedEdges_record_raised. done.
  - rewrite (cut_weights_0d _ Hw). intros ->%WeightedEdges_record_raised. done.
  - rewrite (cut_weights_not_array _ _ Hw) by (simpl; congruence). by intros [= <- _].
  - rewrite (cut_weights_not_array _ _ Hw) by (simpl; congruence). by intros [= <- _].
  - rewrite (cut_weights_not_array _ _ Hw) by (simpl; congruence). by intros [= <- _].
Qed.

Lemma WeightedEdges_record_lines (w : pyvalue) (s s' : WeightedEdges.t) (o : outcome unit) :
  WeightedEdges_record w s = (s', o) → WeightedEdges.lines s' = WeightedEdges.lines s.
Proof.
  unfold WeightedEdges_record.
  destruct (pd_cut w (WeightedEdges.k s)) as [[g b]|e']; by intros [= <- _].
Qed.

(** The binning block never touches [lines]. *)
Lemma cut_weights_lines (s s' : WeightedEdges.t) (o : outcome unit) :
  WeightedEdges.cut_weights s = (s', o) → WeightedEdges.lines s' = WeightedEdges.lines s.
Proof.
  destruct (WeightedEdges.weights s) as [|name|a|sa| |l|n|x] eqn:Hw.
  - rewrite cut_weights_None by done. by intros [= <- _].
  - destruct (edge_properties (WeightedEdges.network s) !! name) as [a|] eqn:Hp.
    + rewrite (cut_weights_name_present _ _ _ Hw Hp).
      by intros ->%WeightedEdges_record_lines.
    + destruct (decide (name = "betweenness")) as [->|Hn].
      * rewrite (cut_weights_betweenness_absent _ Hw Hp).
        by intros ->%WeightedEdges_record_lines.
      * rewrite (cut_weights_name_absent _ _ Hw Hp Hn). by intros [= <- _].
  - rewrite (cut_weights_ndarray _ _ Hw). by intros ->%WeightedEdges_record_lines.
  - rewrite (cut_weights_string_array _ _ Hw). by intros ->%WeightedEdges_record_lines.
  - rewrite (cut_weights_0d _ Hw). by intros ->%WeightedEdges_record_lines.
  - rewrite (cut_weights_not_array _ _ Hw) by (simpl; congruence). by intros [= <- _].
  - rewrite (cut_weights_not_array _ _ Hw) by (simpl; congruence). by intros [= <- _].
  - rewrite (cut_weights_not_array _ _ Hw) by (simpl; congruence). by intros [= <- _].
Qed.

(** * numpy and pandas on float64 *)

(** [np.linspace(lo, hi, n + 1)] for [n >= 1]: [n + 1] samples, the last
    one [hi] itself, the others as [sample64] computes them. *)
Lemma linspace64_samples (lo hi : float64) (n : Z) :
  (1 ≤ n)%Z →
  ∃ l : list float64,
    linspace64 lo hi (n + 1) = Returned l
    ∧ length l = Z.to_nat (n + 1)
    ∧ l !! Z.to_nat n = Some hi
    ∧ ∀ i : nat, (Z.of_nat i < n)%Z → l !! i = Some (sample64 lo hi n i).
Proof.
  intros Hn. unfold linspace64.
  replace (n + 1 <? 0)%Z with false by lia.
  replace (n + 1 - 1)%Z with n by lia.
  replace (0 <? n)%Z with true by lia.
  replace (1 <? n + 1)%Z with true by lia.
  eexists. split; [reflexivity|].
  assert (∀ f g : float64 → float64,
            length (g <$> (f <$> ((λ i : nat, float_of_Z (Z.of_nat i))
                                    <$> seq 0 (Z.to_nat (n + 1)))))
            = Z.to_nat (n + 1)) as Hlen
    by (intros f g; by rewrite !length_fmap, length_seq).
  assert (∀ (f g : float64 → float64) (i : nat), (Z.of_nat i < n + 1)%Z →
            (g <$> (f <$> ((λ i : nat, float_of_Z (Z.of_nat i))
                             <$> seq 0 (Z.to_nat (n + 1))))) !! i
            = Some (g (f (float_of_Z (Z.of_nat i))))) as Hnth.
  { intros f g i Hi. rewrite !list_lookup_fmap.
    rewrite (lookup_seq_lt 0 (Z.to_nat (n + 1)) i) by lia. reflexivity. }
  unfold sample64.
  destruct (PrimFloat.eqb ((hi - lo) / float_of_Z n) 0) eqn:Hstep.
  - split; [by rewrite length_insert, Hlen|]. rewrite Hlen.
    replace (pred (Z.to_nat (n + 1))) with (Z.to_nat n) by lia.
    split; [apply list_lookup_insert_eq; rewrite Hlen; lia|].
    intros i Hi. rewrite list_lookup_insert_ne by lia. by rewrite Hnth by lia.
  - split; [by rewrite length_insert, Hlen|]. rewrite Hlen.
    replace (pred (Z.to_nat (n + 1))) with (Z.to_nat n) by lia.
    split; [apply list_lookup_insert_eq; rewrite Hlen; lia|].
    intros i Hi. rewrite list_lookup_insert_ne by lia. by rewrite Hnth by lia.
Qed.


(** The insertion index: every boundary before it is below the value, the
    boundary at it is not. *)
Lemma searchsorted_left_spec (a : list float64) (v : float64) :
  (searchsorted_left a v ≤ length a)%nat
  ∧ (∀ (j : nat) (b : float64),
       (j < searchsorted_left a v)%nat → a !! j = Some b → np_lt b v = true)
  ∧ (∀ b : float64, a !! searchsorted_left a v = Some b → np_lt b v = false).
Proof.
  induction a as [|b0 a (IHlen & IHlt & IHge)]; simpl.
  - split; [lia|]. split; [intros; lia | by intros].
  - destruct (np_lt b0 v) eqn:Hb0; simpl.
    + split; [lia|]. split.
      * intros [|j] b Hj Hb; simpl in Hb; [congruence|]. apply (IHlt j); [lia|done].
      * exact IHge.
    + split; [lia|]. split; [intros; lia|]. intros b [= <-]. exact Hb0.
Qed.


(** Against a value that is no NaN, numpy's order is [<]. *)
Lemma np_lt_number (b v : float64) :
  PrimFloat.is_nan v = false → np_lt b v = PrimFloat.ltb b v.
Proof. intros Hv. unfold np_lt. rewrite Hv. simpl. by rewrite orb_false_r. Qed.

(** The bin of a value: its boundaries enclose the value. *)
Lemma bin_of_Some (bins : list float64) (v : float64) (g : Z) :
  bin_of bins v = Some g →
  (0 ≤ g)%Z ∧ (g + 1 < Z.of_nat (length bins))%Z ∧ PrimFloat.is_nan v = false
  ∧ ∃ bl bu : float64,
      bins !! Z.to_nat g = Some bl ∧ bins !! S (Z.to_nat g) = Some bu
      ∧ PrimFloat.ltb bl v = true ∧ PrimFloat.ltb bu v = false.
Proof.
  unfold bin_of.
  destruct (searchsorted_left_spec bins v) as (Hlen & Hlt & Hge).
  destruct (PrimFloat.is_nan v) eqn:Hnan; [done|]. simpl.
  case_bool_decide as Hend; [done|]. case_bool_decide as Hzero; [done|]. simpl.
  intros [= <-].
  set (ids := searchsorted_left bins v) in *.
  assert (is_Some (bins !! pred ids)) as [bl Hbl] by (apply lookup_lt_is_Some; lia).
  assert (is_Some (bins !! ids)) as [bu Hbu] by (apply lookup_lt_is_Some; lia).
  split; [lia|]. split; [lia|]. split; [done|]. exists bl, bu.
  replace (Z.to_nat (Z.of_nat ids - 1)) with (pred ids) by lia.
  replace (S (pred ids)) with ids by lia.
  split; [done|]. split; [done|].
  rewrite <- !(np_lt_number _ v Hnan).
  split; [apply (Hlt (pred ids)); [lia|done] | by apply Hge].
Qed.


(** What a returned [pd.cut] of an array has computed. *)
Lemma pd_cut_returned (w : list float64) (k : Z) (groups : list (option Z))
    (bins : list float64) :
  pd_cut (PyNdarray w) k = Returned (groups, bins) →
  (1 ≤ k)%Z
  ∧ groups = bin_of bins <$> w
  ∧ ∃ (x0 : float64) (xs : list float64) (lo hi : float64) (lowered : option float64),
      w = x0 :: xs ∧ cut_range x0 xs lo hi lowered ∧ evenly_cut bins lo hi lowered k.
Proof.
  unfold pd_cut, nbins_to_bins. destruct (k <? 1)%Z eqn:Hk; py_unfold; [done|].
  assert (1 ≤ k)%Z as Hk1 by lia.
  destruct w as [|x0 xs]; py_unfold; [done|].
  destruct (PrimFloat.is_infinity (array_min x0 xs) || PrimFloat.is_infinity (array_max x0 xs));
    py_unfold; [done|].
  destruct (PrimFloat.eqb (array_min x0 xs) (array_max x0 xs)) eqn:Heq.
  - destruct (linspace64_samples (array_min x0 xs - widen_margin (array_min x0 xs))%float
                (array_max x0 xs + widen_margin (array_max x0 xs))%float k Hk1)
      as (l & -> & Hlen & Hlast & Hnth).
    py_unfold. unfold bins_to_cuts. destruct (_ && _); [done|].
    intros [= <- <-]. split; [done|]. split; [done|].
    eexists x0, xs, _, _, None. split; [done|].
    split; [unfold cut_range; rewrite Heq; by split|].
    split; [done|]. split; [apply Hnth; lia|]. split; [done|].
    intros i _ Hi. by apply Hnth.
  - destruct (linspace64_samples (array_min x0 xs) (array_max x0 xs) k Hk1)
      as (l & -> & Hlen & Hlast & Hnth).
    py_unfold. unfold bins_to_cuts. destruct (_ && _); [done|].
    intros [= <- <-]. split; [done|]. split; [done|].
    eexists x0, xs, _, _, (Some _). split; [done|].
    split; [unfold cut_range; rewrite Heq; by split|].
    split; [by rewrite length_alter|].
    split.
    { rewrite list_lookup_alter, decide_True by done. by rewrite (Hnth 0%nat) by lia. }
    split; [rewrite list_lookup_alter_ne by lia; done|].
    intros i Hi1 Hi. rewrite list_lookup_alter_ne by lia. by apply Hnth.
Qed.


(** * numpy.linspace on exact rationals *)

Local Open Scope Q_scope.

Lemma inject_Z_pos (n : Z) : (1 ≤ n)%Z → 0 < inject_Z n.
Proof. intros Hn. change (inject_Z 0 < inject_Z n). rewrite <- Zlt_Qlt. lia. Qed.

Lemma inject_Z_pos_neq0 (n : Z) : (1 ≤ n)%Z → ¬ inject_Z n == 0.
Proof. intros Hn Hq. pose proof (inject_Z_pos n Hn). lra. Qed.

(** [linspace a b (n+1)] has [n+1] samples, the [i]-th one being
    [a + i * (b - a) / n]. *)
Lemma linspace_samples (a b : Q) (n : Z) :
  (1 ≤ n)%Z →
  ∃ l, linspace a b (n + 1) = Returned l
       ∧ length l = Z.to_nat (n + 1)
       ∧ ∀ (i : nat) (x : Q), l !! i = Some x →
           x == a + inject_Z (Z.of_nat i) * ((b - a) / inject_Z n).
Proof.
  intros Hn. unfold linspace.
  replace (n + 1 <? 0)%Z with false by lia.
  replace (n + 1 - 1)%Z with n by lia.
  replace (0 <? n)%Z with true by lia.
  replace (1 <? n + 1)%Z with true by lia.
  eexists. split; [reflexivity|]. split.
  - by rewrite length_insert, !length_fmap, length_seq.
  - intros i x Hx. pose proof (inject_Z_pos_neq0 n Hn) as Hn0.
    rewrite !length_fmap, length_seq in Hx.
    destruct (decide (i = pred (Z.to_nat (n + 1)))) as [->|Hi].
    + rewrite list_lookup_insert_eq in Hx
        by (rewrite !length_fmap, length_seq; lia).
      injection Hx as <-.
      replace (Z.of_nat (pred (Z.to_nat (n + 1)))) with n by lia.
      field. exact Hn0.
    + rewrite list_lookup_insert_ne in Hx by done.
      rewrite !list_lookup_fmap in Hx.
      destruct (seq 0 (Z.to_nat (n + 1)) !! i) as [j|] eqn:Hj; [|done].
      apply lookup_seq in Hj as [-> _]. simpl in Hx. injection Hx as <-.
      apply Qplus_comm.
Qed.

Lemma elem_of_mask_select {A} (rows : list A) (mask : list bool) (x : A) :
  x ∈ WeightedEdges.mask_select rows mask ↔
  ∃ j : nat, rows !! j = Some x ∧ mask !! j = Some true.
Proof.
  unfold WeightedEdges.mask_select.
  revert mask. induction rows as [|r rows IH]; intros [|b mask]; simpl.
  - split; [by intros ?%elem_of_nil | by intros (j & [=] & _)].
  - split; [by intros ?%elem_of_nil | by intros (j & [=] & _)].
  - split; [by intros ?%elem_of_nil | by intros (j & _ & [=])].
  - rewrite elem_of_app, IH. split.
    + intros [Hx|(j & Hr & Hm)].
      * destruct b; [|by apply elem_of_nil in Hx].
        apply list_elem_of_singleton in Hx as ->. by exists 0%nat.
      * by exists (S j).
    + intros ([|j] & Hr & Hm); simpl in *.
      * left. injection Hr as ->. injection Hm as ->. by apply list_elem_of_singleton.
      * right. by exists j.
Qed.

(** The batch of bin [i] holds the positions of the edges assigned to [i]. *)
Lemma elem_of_bin_members (groups : list (option Z)) (i : Z) (j : nat) :
  j ∈ WeightedEdges.bin_members groups i ↔ groups !! j = Some (Some i).
Proof.
  unfold WeightedEdges.bin_members, WeightedEdges.group_mask.
  rewrite elem_of_mask_select. split.
  - intros (j' & Hj' & Hm). apply lookup_seq in Hj' as [-> Hlt]. simpl.
    rewrite list_lookup_fmap in Hm.
    destruct (groups !! j') as [g|]; [|done]. simpl in Hm. injection Hm as Hm.
    apply bool_decide_eq_true in Hm. by subst.
  - intros Hj. exists j. split.
    + apply lookup_seq. split; [done|]. by apply lookup_lt_Some in Hj.
    + rewrite list_lookup_fmap, Hj. simpl. by rewrite bool_decide_eq_true_2.
Qed.

(** [render] draws in the batch of bin [i] the lines at those positions. *)
Lemma elem_of_bin_lines {A} (rows : list A) (groups : list (option Z)) (i : Z) (x : A) :
  x ∈ WeightedEdges.mask_select rows (WeightedEdges.group_mask groups i) ↔
  ∃ j : nat, rows !! j = Some x ∧ j ∈ WeightedEdges.bin_members groups i.
Proof.
  rewrite elem_of_mask_select. unfold WeightedEdges.group_mask. split.
  - intros (j & Hr & Hm). exists j. split; [done|]. apply elem_of_bin_members.
    rewrite list_lookup_fmap in Hm.
    destruct (groups !! j) as [g|]; [|done]. simpl in Hm. injection Hm as Hm.
    apply bool_decide_eq_true in Hm. by subst.
  - intros (j & Hr & Hm%elem_of_bin_members). exists j. split; [done|].
    rewrite list_lookup_fmap, Hm. simpl. by rewrite bool_decide_eq_true_2.
Qed.

(** ** CommunityGradient: the accumulation loop *)

Section Communities.
Context {L : Type} {EqL : EqDecision L} {CountL : Countable L}.
Implicit Types (self : CommunityGradient.t L) (pair : L * L) (es : list Edge).

Local Abbreviation accumulate pair g self :=
  (CommunityGradient.add_to_links pair g 1 self).

Lemma np_getitem_community_at (communities : list L) (i : Z) :
  match np_getitem communities i with
  | Returned x => Some x
  | Raised _ => None
  end = community_at communities i.
Proof.
  unfold np_getitem, community_at.
  set (n := Z.of_nat (length communities)).
  destruct (i <? 0)%Z eqn:Hneg.
  - replace ((0 <=? i) && (i <? n))%Z with false
      by (symmetry; apply andb_false_iff; left; lia).
    replace (i <? 0)%Z with true by lia. rewrite andb_true_r.
    destruct (- n <=? i)%Z eqn:Hlow.
    + replace ((0 <=? i + n) && (i + n <? n))%Z with true
        by (symmetry; apply andb_true_iff; split; lia).
      by destruct (communities !! Z.to_nat (i + n)).
    + replace ((0 <=? i + n) && (i + n <? n))%Z with false
        by (symmetry; apply andb_false_iff; left; lia).
      done.
  - replace (0 <=? i)%Z with true by lia. simpl.
    destruct (i <? n)%Z.
    + by destruct (communities !! Z.to_nat i).
    + by rewrite andb_false_r.
Qed.

(** The pair under which [prepare_data] files an edge is the ordered pair
    of the specification: the community of the source first. *)
Lemma community_pair_ordered (communities : list L) (e : Edge) :
  CommunityGradient.community_pair communities e = ordered_pair communities e.
Proof.
  unfold CommunityGradient.community_pair, CommunityGradient.edge_pair, ordered_pair.
  rewrite <- !np_getitem_community_at. py_unfold.
  destruct (np_getitem communities (index_pair e).1); py_unfold; [|done].
  by destruct (np_getitem communities (index_pair e).2).
Qed.

Lemma omap_community_pair (communities : list L) es :
  omap (CommunityGradient.community_pair communities) es
  = omap (ordered_pair communities) es.
Proof.
  apply list_omap_ext. induction es as [|e es IH]; constructor; [|done].
  apply community_pair_ordered.
Qed.

Lemma edges_of_pair_filter (communities : list L) pair es :
  edges_of_pair communities pair es
  = filter (λ e, CommunityGradient.community_pair communities e = Some pair) es.
Proof.
  unfold edges_of_pair. induction es as [|e es IH]; [done|].
  rewrite !filter_cons, IH, community_pair_ordered. reflexivity.
Qed.

Lemma curve_count_accumulate pair pair' g self :
  CommunityGradient.curve_count (accumulate pair g self) pair' =
    (CommunityGradient.curve_count self pair' + if decide (pair = pair') then 1 else 0)%nat.
Proof.
  unfold CommunityGradient.curve_count, CommunityGradient.add_to_links. simpl.
  destruct (decide (pair = pair')) as [->|Hne].
  - rewrite lookup_insert_eq. simpl. rewrite length_app. simpl.
    by destruct (CommunityGradient.community_links self !! pair').
  - rewrite lookup_insert_ne by done. lia.
Qed.

Lemma total_curves_accumulate pair g self :
  CommunityGradient.total_curves (accumulate pair g self) =
    S (CommunityGradient.total_curves self).
Proof.
  unfold CommunityGradient.total_curves, CommunityGradient.add_to_links. simpl.
  set (m := CommunityGradient.community_links self).
  set (f := λ (_ : L * L) (c : ColoredCurveCollection) (n : nat), (length (curves c) + n)%nat).
  assert (∀ (j1 j2 : L * L) (z1 z2 : ColoredCurveCollection) (y : nat),
            f j1 z1 (f j2 z2 y) = f j2 z2 (f j1 z1 y)) as Hcomm
    by (intros; unfold f; lia).
  destruct (m !! pair) as [c|] eqn:Hc; simpl.
  - rewrite <- insert_delete_eq.
    rewrite map_fold_insert_L; [|by intros; apply Hcomm|by apply lookup_delete_eq].
    rewrite (map_fold_delete_L f 0%nat pair c m); [|by intros; apply Hcomm|done].
    unfold f. simpl. rewrite length_app. simpl. lia.
  - rewrite map_fold_insert_L; [|by intros; apply Hcomm|done].
    unfold f. simpl. lia.
Qed.

Lemma dom_accumulate pair g self :
  dom (CommunityGradient.community_links (accumulate pair g self)) =
    {[pair]} ∪ dom (CommunityGradient.community_links self).
Proof. unfold CommunityGradient.add_to_links. simpl. apply dom_insert_L. Qed.

(** The loop of [prepare_data] over edges with valid node indices. *)
Lemma CommunityGradient_loop es self :
  (∀ e, e ∈ es →
     is_Some (CommunityGradient.community_pair (CommunityGradient.node_communities self) e)) →
  ∃ self',
    for_each (λ edge_data,
        self ← get ;
        pair ← lift (CommunityGradient.edge_pair
                       (CommunityGradient.node_communities self) edge_data) ;
        CommunityGradient.links_add_curve pair (points edge_data) 1) es self
    = (self', Returned tt)
    ∧ CommunityGradient.node_communities self' = CommunityGradient.node_communities self
    ∧ CommunityGradient.data self' = CommunityGradient.data self
    ∧ (∀ pair,
         CommunityGradient.curve_count self' pair =
           (CommunityGradient.curve_count self pair
            + length (filter (λ e, CommunityGradient.community_pair
                                     (CommunityGradient.node_communities self) e = Some pair)
                        es))%nat)
    ∧ dom (CommunityGradient.community_links self') =
        dom (CommunityGradient.community_links self)
        ∪ list_to_set (omap (CommunityGradient.community_pair
                               (CommunityGradient.node_communities self)) es)
    ∧ CommunityGradient.total_curves self' =
        (CommunityGradient.total_curves self + length es)%nat.
Proof.
  revert self. induction es as [|e es IH]; intros self Hvalid.
  - exists self. simpl.
    split; [done|]. split; [done|]. split; [done|].
    split; [intros pair; lia|].
    split; [by rewrite (right_id_L ∅ (∪))|lia].
  - destruct (Hvalid e ltac:(left)) as [pair Hpair].
    assert (CommunityGradient.edge_pair (CommunityGradient.node_communities self) e
            = Returned pair) as Hrun.
    { unfold CommunityGradient.community_pair in Hpair.
      destruct (CommunityGradient.edge_pair _ e); congruence. }
    destruct (IH (accumulate pair (points e) self)) as (self' & Hloop & Hc & Hd & Hcnt & Hdom & Htot).
    { intros e' He'. apply Hvalid. by right. }
    change (CommunityGradient.node_communities (accumulate pair (points e) self))
      with (CommunityGradient.node_communities self) in *.
    change (CommunityGradient.data (accumulate pair (points e) self))
      with (CommunityGradient.data self) in *.
    exists self'. simpl for_each. simpl length.
    split.
    { py_unfold. rewrite Hrun. py_unfold. exact Hloop. }
    split; [done|]. split; [done|]. split; [|split].
    + intros pair'. rewrite Hcnt, curve_count_accumulate.
      rewrite filter_cons. rewrite Hpair.
      destruct (decide (pair = pair')) as [->|Hne].
      * rewrite decide_True by done. simpl. lia.
      * rewrite decide_False by congruence. lia.
    + rewrite Hdom, dom_accumulate. simpl omap. rewrite Hpair.
      rewrite list_to_set_cons.
      by rewrite (comm_L (∪) {[pair]}), <- (assoc_L (∪)).
    + rewrite Htot, total_curves_accumulate. lia.
Qed.

End Communities.

(** ** ODGradient: the accumulation loop *)

Lemma curves_add_curves (c : ColoredCurveCollection) (gs : list geometry) :
  curves (add_curves c gs) = curves c ++ gs.
Proof.
  unfold add_curves. revert c. induction gs as [|g gs IH]; intros c; simpl.
  - by rewrite app_nil_r.
  - rewrite IH. simpl. by rewrite <- app_assoc.
Qed.

Lemma ODGradient_loop (interp : list Q) (es : list Edge) (self : ODGradient.t) :
  for_each (λ edge_data, ODGradient.curves_add (ODGradient.edge_curve interp edge_data))
    es self
  = (ODGradient.set_colored_curves
       (add_curves (ODGradient.colored_curves self) (ODGradient.edge_curve interp <$> es))
       self,
     Returned tt).
Proof.
  revert self. induction es as [|e es IH]; intros self; simpl.
  - by destruct self.
  - unfold ODGradient.curves_add at 1. py_unfold. by rewrite IH.
Qed.

Lemma ODGradient_prepare_data_eq (self : ODGradient.t) :
  ODGradient.prepare_data self =
    match linspace 0 1 (ODGradient.n_points self) with
    | Returned interp =>
        (ODGradient.set_colored_curves
           (add_curves (ODGradient.colored_curves self)
              (ODGradient.edge_curve interp <$> ODGradient.data self))
           self,
         Returned tt)
    | Raised e => (self, Raised e)
    end.
Proof.
  unfold ODGradient.prepare_data. py_unfold.
  destruct (linspace 0 1 (ODGradient.n_points self)) as [interp|e]; [|done].
  apply ODGradient_loop.
Qed.

(** The three branches of lines 393-408. *)
Lemma edge_curve_list_segment (interp : list Q) (e : Edge) (p q : point) :
  points e = PointList [p; q] →
  ODGradient.edge_curve interp e = ODGradient.interpolate e interp.
Proof. intros Hp. unfold ODGradient.edge_curve. by rewrite Hp. Qed.

Lemma edge_curve_array (interp : list Q) (e : Edge) (pts : list point) :
  points e = PointArray pts → ODGradient.edge_curve interp e = PointArray pts.
Proof. intros Hp. unfold ODGradient.edge_curve. rewrite Hp. simpl. done. Qed.

Lemma edge_curve_longer (interp : list Q) (e : Edge) :
  (2 < n_rows (points e))%Z → ODGradient.edge_curve interp e = points e.
Proof.
  intros Hn. unfold ODGradient.edge_curve.
  replace (n_rows (points e) =? 2)%Z with false by lia.
  by rewrite !andb_false_r.
Qed.

Lemma linspace_returns (a b : Q) (n : Z) :
  (0 ≤ n)%Z → ∃ interp : list Q, linspace a b n = Returned interp.
Proof.
  intros Hn. unfold linspace. replace (n <? 0)%Z with false by lia. by eexists.
Qed.

(** [linspace 0 1 n] starts at 0 and stops at 1 as soon as [n >= 2]. *)
Lemma linspace_unit_ends (n : Z) :
  (2 ≤ n)%Z →
  ∃ (interp : list Q) (t0 t1 : Q),
    linspace 0 1 n = Returned interp
    ∧ head interp = Some t0 ∧ last interp = Some t1 ∧ t0 == 0 ∧ t1 == 1.
Proof.
  intros Hn.
  destruct (linspace_samples 0 1 (n - 1) ltac:(lia)) as (l & Hl & Hlen & Hnth).
  replace (n - 1 + 1)%Z with n in * by lia.
  assert (is_Some (l !! 0%nat)) as [t0 Ht0] by (apply lookup_lt_is_Some; lia).
  assert (is_Some (l !! pred (length l))) as [t1 Ht1] by (apply lookup_lt_is_Some; lia).
  exists l, t0, t1. split; [done|].
  split; [by rewrite head_lookup|]. split; [by rewrite last_lookup|].
  pose proof (Hnth _ _ Ht0) as H0. pose proof (Hnth _ _ Ht1) as H1.
  change (inject_Z (Z.of_nat 0)) with 0 in H0.
  replace (Z.of_nat (pred (length l))) with (n - 1)%Z in H1 by lia.
  split; [lra|]. rewrite H1. field. apply inject_Z_pos_neq0. lia.
Qed.

(** X11. WeightedEdges rebuilds [lines], [bins] and the bin assignments on every
    call: a second call leaves the instance of the first one. *)
Lemma WeightedEdges_prepare_twice (self : WeightedEdges.t) :
  WeightedEdges.prepare_data (WeightedEdges.prepare_data self).1
  = WeightedEdges.prepare_data self.
Proof.
  rewrite (WeightedEdges_prepare_data_eq self).
  destruct (WeightedEdges.weights self) as [|name|a|sa| |l|n|x] eqn:Hw.
  - rewrite (cut_weights_None (WeightedEdges.set_lines _ self)) by done.
    rewrite WeightedEdges_prepare_data_eq. simpl. by rewrite cut_weights_None.
  - destruct (edge_properties (WeightedEdges.network self) !! name) as [a|] eqn:Hp.
    + rewrite (cut_weights_name_present (WeightedEdges.set_lines _ self) name a) by done.
      unfold WeightedEdges_record. simpl.
      destruct (pd_cut (PyNdarray a) (WeightedEdges.k self)) as [[g b]|e] eqn:Hcut;
        rewrite WeightedEdges_prepare_data_eq; simpl;
        rewrite (cut_weights_name_present _ name a) by done;
        unfold WeightedEdges_record; simpl; by rewrite Hcut.
    + destruct (decide (name = "betweenness")) as [->|Hn].
      * rewrite (cut_weights_betweenness_absent (WeightedEdges.set_lines _ self)) by done.
        unfold WeightedEdges_record. simpl.
        destruct (pd_cut _ (WeightedEdges.k self)) as [[g b]|e] eqn:Hcut;
          rewrite WeightedEdges_prepare_data_eq; simpl;
          rewrite (cut_weights_name_present _ "betweenness"
                     (betweenness_values (WeightedEdges.network self)))
            by (done || apply lookup_insert_eq);
          unfold WeightedEdges_record; simpl; by rewrite Hcut.
      * rewrite (cut_weights_name_absent (WeightedEdges.set_lines _ self) name) by done.
        rewrite WeightedEdges_prepare_data_eq. simpl.
        by rewrite (cut_weights_name_absent _ name).
  - rewrite (cut_weights_ndarray (WeightedEdges.set_lines _ self) a) by done.
    unfold WeightedEdges_record. simpl.
    destruct (pd_cut (PyNdarray a) (WeightedEdges.k self)) as [[g b]|e] eqn:Hcut;
      rewrite WeightedEdges_prepare_data_eq; simpl;
      rewrite (cut_weights_ndarray _ a) by done;
      unfold WeightedEdges_record; simpl; by rewrite Hcut.
  - rewrite (cut_weights_string_array (WeightedEdges.set_lines _ self) sa) by done.
    unfold WeightedEdges_record. simpl.
    destruct (pd_cut (PyNdarrayStr sa) (WeightedEdges.k self)) as [[g b]|e] eqn:Hcut;
      rewrite WeightedEdges_prepare_data_eq; simpl;
      rewrite (cut_weights_string_array _ sa) by done;
      unfold WeightedEdges_record; simpl; by rewrite Hcut.
  - rewrite (cut_weights_0d (WeightedEdges.set_lines _ self)) by done.
    rewrite WeightedEdges_prepare_data_eq. simpl.
    by rewrite (cut_weights_0d _) by done.
  - rewrite (cut_weights_not_array (WeightedEdges.set_lines _ self) (PyList l))
      by (done || (simpl; congruence)).
    rewrite WeightedEdges_prepare_data_eq. simpl.
    by rewrite (cut_weights_not_array _ (PyList l)) by (done || (simpl; congruence)).
  - rewrite (cut_weights_not_array (WeightedEdges.set_lines _ self) (PyInt n))
      by (done || (simpl; congruence)).
    rewrite WeightedEdges_prepare_data_eq. simpl.
    by rewrite (cut_weights_not_array _ (PyInt n)) by (done || (simpl; congruence)).
  - rewrite (cut_weights_not_array (WeightedEdges.set_lines _ self) (PyFloat x))
      by (done || (simpl; congruence)).
    rewrite WeightedEdges_prepare_data_eq. simpl.
    by rewrite (cut_weights_not_array _ (PyFloat x)) by (done || (simpl; congruence)).
Qed.

(** * Claims *)

(** ** WeightedEdges: the binning *)






(** ** ODGradient: resampling *)

(** C10. With n_points >= 2, prepare_data returns, and every curve it
    produces by resampling a straight two-point edge begins at the source
    coordinates of the edge and ends at its target coordinates. *)
Theorem ODGradient_resampled_ends (self : ODGradient.t) :
  (2 ≤ ODGradient.n_points self)%Z →
  ∃ (interp : list Q) (self' : ODGradient.t),
    linspace 0 1 (ODGradient.n_points self) = Returned interp
    ∧ ODGradient.prepare_data self = (self', Returned tt)
    ∧ curves (ODGradient.colored_curves self') =
        curves (ODGradient.colored_curves self)
        ++ (ODGradient.edge_curve interp <$> ODGradient.data self)
    ∧ ∀ (e : Edge) (p q : point),
        e ∈ ODGradient.data self → points e = PointList [p; q] →
        ∃ first final : point,
          head (coords (ODGradient.edge_curve interp e)) = Some first
          ∧ last (coords (ODGradient.edge_curve interp e)) = Some final
          ∧ point_eq first (source e) ∧ point_eq final (target e).
Proof.
  intros Hn.
  destruct (linspace_unit_ends _ Hn) as (interp & t0 & t1 & Hl & Hh & Hla & Ht0 & Ht1).
  exists interp. eexists. split; [done|].
  rewrite ODGradient_prepare_data_eq, Hl. split; [reflexivity|].
  split; [apply curves_add_curves|].
  intros e p q _ Hp. rewrite (edge_curve_list_segment interp e p q Hp).
  unfold ODGradient.interpolate. simpl coords.
  rewrite fmap_last, Hla, head_lookup, list_lookup_fmap, <- head_lookup, Hh. simpl.
  eexists _, _. split; [reflexivity|]. split; [reflexivity|].
  unfold point_eq, point_add, point_scale. simpl.
  rewrite Ht0, Ht1. repeat split; ring.
Qed.

Lemma ODGradient_resampled_ends_witness :
  ∃ (interp : list Q) (self' : ODGradient.t),
    linspace 0 1 3 = Returned interp
    ∧ ODGradient.prepare_data (ODGradient.__init__ straight_and_curved 3) = (self', Returned tt)
    ∧ curves (ODGradient.colored_curves self') =
        [] ++ (ODGradient.edge_curve interp <$> edge_data straight_and_curved)
    ∧ ∀ (e : Edge) (p q : point),
        e ∈ edge_data straight_and_curved → points e = PointList [p; q] →
        ∃ first final : point,
          head (coords (ODGradient.edge_curve interp e)) = Some first
          ∧ last (coords (ODGradient.edge_curve interp e)) = Some final
          ∧ point_eq first (source e) ∧ point_eq final (target e).
Proof.
  apply (ODGradient_resampled_ends (ODGradient.__init__ straight_and_curved 3)).
  simpl. lia.
Defined.

(** The scenario of the specification: the straight edge from (0,0) to
    (10,0), kept as a list of its two ends, is resampled with n_points = 3
    into (0,0), (5,0), (10,0); a curved edge of three points is stored as it
    is. *)
Lemma ODGradient_scenario :
  ∃ p0 p1 p2 : point,
    curves (ODGradient.colored_curves
              (ODGradient.prepare_data (ODGradient.__init__ straight_and_curved 3)).1)
    = [PointArray [p0; p1; p2]; points curved_edge]
    ∧ point_eq p0 (0, 0) ∧ point_eq p1 (5 # 1, 0) ∧ point_eq p2 (10 # 1, 0).
Proof.
  eexists _, _, _. split; [vm_compute; reflexivity|].
  repeat split; reflexivity.
Qed.

(** C1 (the defect). A geometry that is a numpy array is never resampled,
    whatever its length: its type is compared with the function np.array,
    which no type equals.  The two-point array segment from (0,0) to (10,0)
    is stored with its two points although n_points = 3. *)
Theorem ODGradient_array_segment_kept :
  (∀ (interp : list Q) (s t : point) (ip : Z * Z) (pts : list point),
     ODGradient.edge_curve interp (mkEdge s t ip (PointArray pts)) = PointArray pts)
  ∧ curves (ODGradient.colored_curves
              (ODGradient.prepare_data (ODGradient.__init__ one_array_segment 3)).1)
    = [PointArray [(0, 0); (10 # 1, 0)]].
Proof.
  split.
  - intros. by apply edge_curve_array.
  - vm_compute. reflexivity.
Qed.

(** ** WeightedEdges: errors *)

(** C3 (as amended). A raise of WeightedEdges.prepare_data records nothing
    of the binning: bins and the bin assignments are as before the call,
    while lines has already been rebuilt from the edges of the network.
    PlainEdges.prepare_data never raises, and a raise of
    ODGradient.prepare_data leaves the instance as it was. *)
Theorem prepare_data_on_error :
  (∀ (self self' : WeightedEdges.t) (e : exn),
     WeightedEdges.prepare_data self = (self', Raised e) →
     WeightedEdges.bins self' = WeightedEdges.bins self
     ∧ WeightedEdges.line_groups self' = WeightedEdges.line_groups self
     ∧ WeightedEdges.lines self' =
         LineArray (coords <$> (points <$> WeightedEdges.data self)))
  ∧ (∀ self : PlainEdges.t, (PlainEdges.prepare_data self).2 = Returned tt)
  ∧ (∀ (self self' : ODGradient.t) (e : exn),
       ODGradient.prepare_data self = (self', Raised e) → self' = self).
Proof.
  split; [|split].
  - intros self self' e. rewrite WeightedEdges_prepare_data_eq.
    intros (Hb & Hg & Hl & _)%cut_weights_raised. by rewrite Hb, Hg, Hl.
  - intros self. by rewrite PlainEdges_prepare_data_eq.
  - intros self self' e. rewrite ODGradient_prepare_data_eq.
    destruct (linspace 0 1 (ODGradient.n_points self)); congruence.
Qed.

(** C3, the claim as stated, fails: when the weights name an edge property
    that does not exist, the call raises after [lines] has been replaced. *)
Lemma WeightedEdges_partial_state :
  ¬ no_partial_state (WeightedEdges.__init__ four_edges (PyStr "speed") 2).
Proof.
  intros Hclaim.
  destruct (Hclaim _ (Exception "weights must be a valid edge property if str")
              ltac:(vm_compute; reflexivity)) as [Hlines _].
  vm_compute in Hlines. discriminate Hlines.
Qed.

Lemma prepare_data_on_error_witness :
  let self := WeightedEdges.__init__ four_edges (PyStr "speed") 2 in
  let self' := (WeightedEdges.prepare_data self).1 in
  (WeightedEdges.bins self' = None
   ∧ WeightedEdges.line_groups self' = None
   ∧ WeightedEdges.lines self' = LineArray (coords <$> (points <$> edge_data four_edges)))
  ∧ ODGradient.__init__ four_edges (-1) = ODGradient.__init__ four_edges (-1).
Proof.
  split.
  - apply (proj1 prepare_data_on_error
             (WeightedEdges.__init__ four_edges (PyStr "speed") 2)
             (WeightedEdges.prepare_data
                (WeightedEdges.__init__ four_edges (PyStr "speed") 2)).1
             (Exception "weights must be a valid edge property if str")).
    vm_compute. reflexivity.
  - apply (proj2 (proj2 prepare_data_on_error) _ _
             (ValueError "Number of samples, -1, must be non-negative.")).
    vm_compute. reflexivity.
Defined.

(** C5 (the defect). With weights = None both validations are passed, and
    the binning then refuses None: prepare_data raises instead of
    returning. *)
Theorem WeightedEdges_None_weights_refused (net : Network) (k0 : Z) :
  WeightedEdges.prepare_data (WeightedEdges.__init__ net PyNone k0) =
    (collected (WeightedEdges.__init__ net PyNone k0),
     Raised (ValueError "Input array must be 1 dimensional")).
Proof. rewrite WeightedEdges_prepare_data_eq. by apply cut_weights_None. Qed.

(** C8. Weights given by name: an existing edge property is looked up and
    its values are binned; an absent "betweenness" is computed first, stored
    on the graph and then binned; any other absent name raises the error
    "weights must be a valid edge property ...". *)
Theorem WeightedEdges_weights_by_name (self : WeightedEdges.t) (name : string) :
  WeightedEdges.weights self = PyStr name →
  (∀ a : list float64,
     edge_properties (WeightedEdges.network self) !! name = Some a →
     WeightedEdges.prepare_data self = WeightedEdges_record (PyNdarray a) (collected self))
  ∧ (edge_properties (WeightedEdges.network self) !! name = None →
     name = "betweenness" →
     WeightedEdges.prepare_data self =
       WeightedEdges_record
         (PyNdarray (betweenness_values (WeightedEdges.network self)))
         (WeightedEdges.set_network
            (estimate_betweenness (WeightedEdges.network self)) (collected self))
     ∧ edge_properties (estimate_betweenness (WeightedEdges.network self)) !! name
       = Some (betweenness_values (WeightedEdges.network self)))
  ∧ (edge_properties (WeightedEdges.network self) !! name = None →
     name ≠ "betweenness" →
     ∃ msg : string,
       WeightedEdges.prepare_data self = (collected self, Raised (Exception msg))
       ∧ String.prefix "weights must be a valid edge property" msg = true).
Proof.
  intros Hw. rewrite WeightedEdges_prepare_data_eq. fold (collected self).
  split; [|split].
  - intros a Hp. by apply (cut_weights_name_present (collected self) name).
  - intros Hp ->. split.
    + by apply (cut_weights_betweenness_absent (collected self)).
    + apply lookup_insert_eq.
  - intros Hp Hn. eexists. split.
    + by apply (cut_weights_name_absent (collected self) name).
    + reflexivity.
Qed.

Lemma WeightedEdges_weights_by_name_witness :
  (WeightedEdges.prepare_data (WeightedEdges.__init__ four_edges_with_speed (PyStr "speed") 2)
   = WeightedEdges_record (PyNdarray [1; 2; 3; 4]%float)
       (collected (WeightedEdges.__init__ four_edges_with_speed (PyStr "speed") 2)))
  ∧ (WeightedEdges.prepare_data
       (WeightedEdges.__init__ four_edges_with_speed (PyStr "betweenness") 2)
     = WeightedEdges_record (PyNdarray [3; 1; 1; 3]%float)
         (WeightedEdges.set_network (estimate_betweenness four_edges_with_speed)
            (collected (WeightedEdges.__init__ four_edges_with_speed (PyStr "betweenness") 2))))
  ∧ ∃ msg : string,
      WeightedEdges.prepare_data
        (WeightedEdges.__init__ four_edges_with_speed (PyStr "length") 2)
      = (collected (WeightedEdges.__init__ four_edges_with_speed (PyStr "length") 2),
         Raised (Exception msg))
      ∧ String.prefix "weights must be a valid edge property" msg = true.
Proof.
  split; [|split].
  - apply (proj1 (WeightedEdges_weights_by_name
                    (WeightedEdges.__init__ four_edges_with_speed (PyStr "speed") 2)
                    "speed" eq_refl)).
    vm_compute. reflexivity.
  - apply (proj1 (proj2 (WeightedEdges_weights_by_name
                    (WeightedEdges.__init__ four_edges_with_speed (PyStr "betweenness") 2)
                    "betweenness" eq_refl))); [vm_compute|]; reflexivity.
  - apply (proj2 (proj2 (WeightedEdges_weights_by_name
                    (WeightedEdges.__init__ four_edges_with_speed (PyStr "length") 2)
                    "length" eq_refl))); [vm_compute; reflexivity | discriminate].
Defined.

(** C9 (as amended). When the resolved weights are present (not None) and
    are not a numpy array (a list, an int, a float), prepare_data raises the
    ValueError "weights must be np.array instead of <type>." at once: the
    lines are collected and the binning is not reached.  The check is on the
    type of the container only. *)
Theorem WeightedEdges_weights_not_array (self s1 : WeightedEdges.t) (w : pyvalue) :
  WeightedEdges.resolve_weights (WeightedEdges.weights self) (collected self)
    = (s1, Returned w) →
  is_not_None w = true →
  type_of w ≠ np_ndarray →
  WeightedEdges.prepare_data self =
    (collected self,
     Raised (ValueError ("weights must be np.array instead of "
                         +:+ class_repr (class_of w) +:+ "."))).
Proof.
  intros Hres Hpresent Htype. rewrite WeightedEdges_prepare_data_eq. fold (collected self).
  destruct (WeightedEdges.weights self) as [|name|a|sa| |l|n|x] eqn:Hw.
  - injection Hres as <- <-. done.
  - exfalso. revert Hres. simpl. py_unfold.
    destruct (edge_properties (WeightedEdges.network self) !! name) as [a|] eqn:Hp.
    + rewrite bool_decide_eq_false_2 by discriminate. py_unfold. rewrite Hp.
      intros [= _ <-]. by apply Htype.
    + rewrite bool_decide_eq_true_2 by reflexivity.
      destruct (name =? "betweenness")%string eqn:Hn; py_unfold; [|done].
      apply String.eqb_eq in Hn as ->. rewrite lookup_insert_eq.
      intros [= _ <-]. by apply Htype.
  - injection Hres as <- <-. by destruct Htype.
  - injection Hres as <- <-. by destruct Htype.
  - injection Hres as <- <-. by destruct Htype.
  - injection Hres as <- <-. by apply cut_weights_not_array.
  - injection Hres as <- <-. by apply cut_weights_not_array.
  - injection Hres as <- <-. by apply cut_weights_not_array.
Qed.

Lemma WeightedEdges_weights_not_array_witness :
  WeightedEdges.prepare_data
    (WeightedEdges.__init__ four_edges (PyList [1; 2; 3; 4]%float) 2)
  = (collected (WeightedEdges.__init__ four_edges (PyList [1; 2; 3; 4]%float) 2),
     Raised (ValueError "weights must be np.array instead of <class 'list'>.")).
Proof.
  apply (WeightedEdges_weights_not_array _
           (collected (WeightedEdges.__init__ four_edges (PyList [1; 2; 3; 4]%float) 2))
           (PyList [1; 2; 3; 4]%float));
    [reflexivity | reflexivity | discriminate].
Defined.

(** C9, the claim as stated, fails: an array of strings is present and is
    no numeric array, yet the check of line 203 lets every numpy array
    through; prepare_data goes on to the binning, whose TypeError is not the
    error of line 204. *)
Lemma WeightedEdges_string_array_passes :
  ¬ weights_type_claim
      (WeightedEdges.__init__ four_edges (PyNdarrayStr ["a"; "b"; "c"; "d"]) 2)
      (PyNdarrayStr ["a"; "b"; "c"; "d"]).
Proof.
  intros Hclaim.
  specialize (Hclaim eq_refl eq_refl ltac:(by intros [a [=]])).
  vm_compute in Hclaim. discriminate Hclaim.
Qed.

(** ** CommunityGradient: the groups *)

Lemma CommunityGradient_prepare_fresh {L : Type} `{Countable L}
    (net : Network) (communities : list L) :
  (∀ e, e ∈ edge_data net →
     is_Some (CommunityGradient.community_pair communities e)) →
  ∃ self' : CommunityGradient.t L,
    CommunityGradient.prepare_data (CommunityGradient.__init__ net communities)
      = (self', Returned tt)
    ∧ dom (CommunityGradient.community_links self') =
        list_to_set (omap (CommunityGradient.community_pair communities) (edge_data net))
    ∧ (∀ pair : L * L,
         CommunityGradient.curve_count self' pair =
           length (filter (λ e, CommunityGradient.community_pair communities e = Some pair)
                     (edge_data net)))
    ∧ CommunityGradient.total_curves self' = length (edge_data net).
Proof.
  intros Hvalid.
  destruct (CommunityGradient_loop (edge_data net)
              (CommunityGradient.__init__ net communities) Hvalid)
    as (self' & Hloop & _ & _ & Hcnt & Hdom & Htot).
  exists self'. split; [exact Hloop|].
  split. { rewrite Hdom. simpl. by rewrite dom_empty_L, (left_id_L ∅ (∪)). }
  split. { intros pair. by rewrite Hcnt. }
  rewrite Htot. unfold CommunityGradient.total_curves. simpl.
  by rewrite map_fold_empty.
Qed.

(** One call of [prepare_data], on any instance whose edges carry valid
    node indices: it returns, the keys gain the ordered (source community,
    target community) pairs present among the edges, and every group gains
    as many curves as there are edges with its pair.  On a constructed
    instance the groups are then as the specification has them. *)
Lemma CommunityGradient_groups {L : Type} `{Countable L} (self : CommunityGradient.t L) :
  (∀ e, e ∈ CommunityGradient.data self →
     is_Some (ordered_pair (CommunityGradient.node_communities self) e)) →
  ∃ self' : CommunityGradient.t L,
    CommunityGradient.prepare_data self = (self', Returned tt)
    ∧ dom (CommunityGradient.community_links self')
      = dom (CommunityGradient.community_links self)
        ∪ list_to_set (omap (ordered_pair (CommunityGradient.node_communities self))
                         (CommunityGradient.data self))
    ∧ ∀ pair : L * L,
        CommunityGradient.curve_count self' pair
        = (CommunityGradient.curve_count self pair
           + length (edges_of_pair (CommunityGradient.node_communities self) pair
                       (CommunityGradient.data self)))%nat.
Proof.
  intros Hvalid.
  destruct (CommunityGradient_loop (CommunityGradient.data self) self)
    as (self' & Hloop & _ & _ & Hcnt & Hdom & _).
  { intros e He. rewrite community_pair_ordered. by apply Hvalid. }
  exists self'. split; [exact Hloop|]. split.
  - by rewrite Hdom, omap_community_pair.
  - intros pair. by rewrite Hcnt, edges_of_pair_filter.
Qed.

(** C6 (the defect). The groups are right after a first call and wrong
    after a second one.  On the network whose two edges both run from node
    0 to node 1, with the communities [A, B]: both edges have the ordered
    pair (A,B) and none has (B,A); after one prepare_data the only key is
    (A,B), with two curves; after a second prepare_data the key (A,B) holds
    four curves for its two edges. *)
Theorem CommunityGradient_groups_second_call :
  let communities := ["A"; "B"]%string in
  let cg := CommunityGradient.__init__ straight_and_curved communities in
  let first := CommunityGradient.prepare_data cg in
  let second := CommunityGradient.prepare_data first.1 in
  edges_of_pair communities ("A", "B")%string (edge_data straight_and_curved)
  = [straight_edge 0 1; curved_edge]
  ∧ edges_of_pair communities ("B", "A")%string (edge_data straight_and_curved) = []
  ∧ first.2 = Returned tt
  ∧ dom (CommunityGradient.community_links first.1) = {[ ("A", "B")%string ]}
  ∧ CommunityGradient.curve_count first.1 ("A", "B")%string = 2%nat
  ∧ second.2 = Returned tt
  ∧ dom (CommunityGradient.community_links second.1) = {[ ("A", "B")%string ]}
  ∧ CommunityGradient.curve_count second.1 ("A", "B")%string = 4%nat.
Proof. vm_compute. by repeat split. Qed.

(** ** The number of prepared lines *)

(** After prepare_data has run once on a constructed strategy, the number
    of line geometries it holds is the number of edges of the network:
    the rows of [lines] for PlainEdges and WeightedEdges (also when the
    weights are refused), the curves under all pairs for CommunityGradient,
    the curves of the shared collection for ODGradient. *)
Theorem prepared_lines_count :
  (∀ net : Network,
     lines_count (PlainEdges.lines (PlainEdges.prepare_data (PlainEdges.__init__ net)).1)
     = length (edge_data net))
  ∧ (∀ (net : Network) (w : pyvalue) (k0 : Z),
       lines_count
         (WeightedEdges.lines
            (WeightedEdges.prepare_data (WeightedEdges.__init__ net w k0)).1)
       = length (edge_data net))
  ∧ (∀ (L : Type) (EqL : EqDecision L) (CountL : Countable L)
       (net : Network) (communities : list L),
       (∀ e, e ∈ edge_data net →
          is_Some (CommunityGradient.community_pair communities e)) →
       ∃ self' : CommunityGradient.t L,
         CommunityGradient.prepare_data (CommunityGradient.__init__ net communities)
           = (self', Returned tt)
         ∧ CommunityGradient.total_curves self' = length (edge_data net))
  ∧ (∀ (net : Network) (n : Z),
       (0 ≤ n)%Z →
       ∃ self' : ODGradient.t,
         ODGradient.prepare_data (ODGradient.__init__ net n) = (self', Returned tt)
         ∧ length (curves (ODGradient.colored_curves self')) = length (edge_data net)).
Proof.
  split; [|split; [|split]].
  - intros net. rewrite PlainEdges_prepare_data_eq. simpl.
    by rewrite !length_fmap.
  - intros net w k0. rewrite WeightedEdges_prepare_data_eq.
    destruct (WeightedEdges.cut_weights _) as [s' o] eqn:Hcut.
    apply cut_weights_lines in Hcut. simpl in *. rewrite Hcut. simpl.
    by rewrite !length_fmap.
  - intros L EqL CountL net communities Hvalid.
    destruct (CommunityGradient_prepare_fresh net communities Hvalid)
      as (self' & Hrun & _ & _ & Htot).
    by exists self'.
  - intros net n Hn. rewrite ODGradient_prepare_data_eq.
    destruct (linspace_returns 0 1 n Hn) as [interp Hl].
    simpl ODGradient.n_points. rewrite Hl.
    eexists. split; [reflexivity|].
    unfold ODGradient.set_colored_curves, ODGradient.colored_curves at 1.
    by rewrite curves_add_curves, length_app, length_fmap.
Qed.

Lemma prepared_lines_count_witness :
  (∃ self' : CommunityGradient.t string,
     CommunityGradient.prepare_data (CommunityGradient.__init__ two_way ["A"; "B"]%string)
       = (self', Returned tt)
     ∧ CommunityGradient.total_curves self' = 2%nat)
  ∧ ∃ self' : ODGradient.t,
      ODGradient.prepare_data (ODGradient.__init__ two_way 3%Z) = (self', Returned tt)
      ∧ length (curves (ODGradient.colored_curves self')) = 2%nat.
Proof.
  split.
  - apply (proj1 (proj2 (proj2 prepared_lines_count)) string _ _ two_way ["A"; "B"]%string).
    intros e He. repeat (apply elem_of_cons in He as [->|He]; [by eexists|]).
    by apply elem_of_nil in He.
  - apply (proj2 (proj2 (proj2 prepared_lines_count)) two_way 3%Z). lia.
Defined.

(** C7 (the defect). The count is right after a first call and, for the
    two gradient strategies, wrong after a second one.  On the network of
    four edges: PlainEdges and WeightedEdges hold four lines after one call
    and after two; CommunityGradient and ODGradient hold four curves after
    one call and eight after two. *)
Theorem prepared_lines_count_second_call :
  let plain := PlainEdges.prepare_data (PlainEdges.__init__ four_edges) in
  let weighted :=
    WeightedEdges.prepare_data
      (WeightedEdges.__init__ four_edges (PyNdarray [1; 2; 3; 4]%float) 2) in
  let cg :=
    CommunityGradient.prepare_data
      (CommunityGradient.__init__ four_edges ["A"; "B"; "A"; "B"]%string) in
  let od := ODGradient.prepare_data (ODGradient.__init__ four_edges 3%Z) in
  length (edge_data four_edges) = 4%nat
  ∧ (lines_count (PlainEdges.lines plain.1) = 4
     ∧ lines_count (PlainEdges.lines (PlainEdges.prepare_data plain.1).1) = 4)%nat
  ∧ (lines_count (WeightedEdges.lines weighted.1) = 4
     ∧ lines_count (WeightedEdges.lines (WeightedEdges.prepare_data weighted.1).1) = 4)%nat
  ∧ (cg.2 = Returned tt ∧ (CommunityGradient.prepare_data cg.1).2 = Returned tt
     ∧ CommunityGradient.total_curves cg.1 = 4%nat
     ∧ CommunityGradient.total_curves (CommunityGradient.prepare_data cg.1).1 = 8%nat)
  ∧ (od.2 = Returned tt ∧ (ODGradient.prepare_data od.1).2 = Returned tt
     ∧ length (curves (ODGradient.colored_curves od.1)) = 4%nat
     ∧ length (curves (ODGradient.colored_curves (ODGradient.prepare_data od.1).1)) = 8%nat).
Proof. vm_compute. by repeat split. Qed.

(** ** Preparing twice *)

(** PlainEdges rebuilds [lines] on every call. *)
Lemma PlainEdges_prepare_twice (self : PlainEdges.t) :
  PlainEdges.prepare_data (PlainEdges.prepare_data self).1 = PlainEdges.prepare_data self.
Proof. rewrite !PlainEdges_prepare_data_eq. by destruct self. Qed.

(** ODGradient appends to the collection made by the constructor: a second
    call adds every curve once more. *)
Lemma ODGradient_prepare_appends (self : ODGradient.t) :
  (0 ≤ ODGradient.n_points self)%Z →
  length (curves (ODGradient.colored_curves (ODGradient.prepare_data self).1))
  = (length (curves (ODGradient.colored_curves self)) + length (ODGradient.data self))%nat.
Proof.
  intros Hn. rewrite ODGradient_prepare_data_eq.
  destruct (linspace_returns 0 1 _ Hn) as [interp ->].
  cbn [fst ODGradient.colored_curves ODGradient.set_colored_curves].
  by rewrite curves_add_curves, length_app, length_fmap.
Qed.

(** C4 (the defect). CommunityGradient and ODGradient do not rebuild their
    curves: on the network with the edges (0,1) and (1,0), a second
    prepare_data leaves two curves under each of (A,B) and (B,A) where one
    call leaves one, and four curves in the collection of ODGradient where
    one call leaves two. *)
Theorem prepare_data_twice_accumulates :
  let cg := CommunityGradient.__init__ two_way ["A"; "B"]%string in
  let cg1 := (CommunityGradient.prepare_data cg).1 in
  let cg2 := (CommunityGradient.prepare_data cg1).1 in
  let od := ODGradient.__init__ two_way 3%Z in
  let od1 := (ODGradient.prepare_data od).1 in
  let od2 := (ODGradient.prepare_data od1).1 in
  (CommunityGradient.curve_count cg1 ("A", "B")%string = 1
   ∧ CommunityGradient.curve_count cg1 ("B", "A")%string = 1
   ∧ CommunityGradient.curve_count cg2 ("A", "B")%string = 2
   ∧ CommunityGradient.curve_count cg2 ("B", "A")%string = 2)%nat
  ∧ (length (curves (ODGradient.colored_curves od1)) = 2
     ∧ length (curves (ODGradient.colored_curves od2)) = 4)%nat.
Proof. vm_compute. repeat split. Qed.

(** * Further properties *)

(** ** WeightedEdges: what a returned binning looks like *)

(** A returned [prepare_data] on an array of weights: the array is not
    empty, there is at least one bin, and the instance holds the boundaries
    and the label of every weight. *)
Lemma prepare_ndarray_returned (self self' : WeightedEdges.t) (w : list float64) :
  WeightedEdges.weights self = PyNdarray w →
  WeightedEdges.prepare_data self = (self', Returned tt) →
  ∃ bins : list float64,
    w ≠ [] ∧ (1 ≤ WeightedEdges.k self)%Z
    ∧ length bins = Z.to_nat (WeightedEdges.k self + 1)
    ∧ self' = WeightedEdges.set_line_groups (bin_of bins <$> w)
                (WeightedEdges.set_bins bins (collected self)).
Proof.
  intros Hw. rewrite WeightedEdges_prepare_data_eq. fold (collected self).
  rewrite (cut_weights_ndarray (collected self) w) by done.
  unfold WeightedEdges_record. simpl WeightedEdges.k.
  destruct (pd_cut (PyNdarray w) (WeightedEdges.k self)) as [[g b]|e] eqn:Hcut; [|done].
  destruct (pd_cut_returned _ _ _ _ Hcut)
    as (Hk & -> & x0 & xs & lo & hi & lowered & -> & _ & Hlen & _).
  intros [= <-]. by exists b.
Qed.

(** [prepare_data] never changes [k]. *)
Lemma WeightedEdges_prepare_data_k (self : WeightedEdges.t) :
  WeightedEdges.k (WeightedEdges.prepare_data self).1 = WeightedEdges.k self.
Proof.
  assert (∀ w s, WeightedEdges.k (WeightedEdges_record w s).1 = WeightedEdges.k s) as Hrec.
  { intros w s. unfold WeightedEdges_record.
    by destruct (pd_cut w (WeightedEdges.k s)) as [[g b]|e]. }
  rewrite WeightedEdges_prepare_data_eq. fold (collected self).
  destruct (WeightedEdges.weights self) as [|name|a|sa| |l|n|x] eqn:Hw.
  - by rewrite (cut_weights_None (collected self)).
  - destruct (edge_properties (WeightedEdges.network self) !! name) as [a|] eqn:Hp.
    + rewrite (cut_weights_name_present (collected self) name a) by done. by rewrite Hrec.
    + destruct (decide (name = "betweenness")) as [->|Hn].
      * rewrite (cut_weights_betweenness_absent (collected self)) by done. by rewrite Hrec.
      * by rewrite (cut_weights_name_absent (collected self) name).
  - rewrite (cut_weights_ndarray (collected self) a) by done. by rewrite Hrec.
  - rewrite (cut_weights_string_array (collected self) sa) by done. by rewrite Hrec.
  - rewrite (cut_weights_0d (collected self)) by done. by rewrite Hrec.
  - by rewrite (cut_weights_not_array (collected self) (PyList l))
      by (done || (simpl; congruence)).
  - by rewrite (cut_weights_not_array (collected self) (PyInt n))
      by (done || (simpl; congruence)).
  - by rewrite (cut_weights_not_array (collected self) (PyFloat x))
      by (done || (simpl; congruence)).
Qed.

(** X1. A raise or a return of [prepare_data] never changes [weights], [k] or
    the edge collection, and changes the network only by the betweenness
    fallback, which stays stored also when the binning then raises. *)
Theorem WeightedEdges_prepare_data_frame (self : WeightedEdges.t) :
  let self' := (WeightedEdges.prepare_data self).1 in
  let fallback :=
    WeightedEdges.weights self = PyStr "betweenness"
    ∧ edge_properties (WeightedEdges.network self) !! "betweenness" = None in
  WeightedEdges.weights self' = WeightedEdges.weights self
  ∧ WeightedEdges.k self' = WeightedEdges.k self
  ∧ WeightedEdges.data self' = WeightedEdges.data self
  ∧ (fallback →
     WeightedEdges.network self' = estimate_betweenness (WeightedEdges.network self))
  ∧ (¬ fallback → WeightedEdges.network self' = WeightedEdges.network self).
Proof.
  assert (∀ w s, let s' := (WeightedEdges_record w s).1 in
            WeightedEdges.weights s' = WeightedEdges.weights s
            ∧ WeightedEdges.k s' = WeightedEdges.k s
            ∧ WeightedEdges.data s' = WeightedEdges.data s
            ∧ WeightedEdges.network s' = WeightedEdges.network s) as Hrec.
  { intros w s. unfold WeightedEdges_record.
    by destruct (pd_cut w (WeightedEdges.k s)) as [[g b]|e]. }
  simpl. rewrite WeightedEdges_prepare_data_eq. fold (collected self).
  destruct (WeightedEdges.weights self) as [|name|a|sa| |l|n|x] eqn:Hw.
  - rewrite (cut_weights_None (collected self)) by done.
    split; [simpl in *; congruence|]. split; [simpl in *; congruence|].
      split; [simpl in *; congruence|]. split; [by intros [? _]|simpl in *; congruence].
  - destruct (edge_properties (WeightedEdges.network self) !! name) as [a|] eqn:Hp.
    + rewrite (cut_weights_name_present (collected self) name a) by done.
      destruct (Hrec (PyNdarray a) (collected self)) as (? & ? & ? & ?).
      split; [simpl in *; congruence|]. split; [simpl in *; congruence|].
      split; [simpl in *; congruence|].
      split; [intros [[= ->] ?]; congruence|simpl in *; congruence].
    + destruct (decide (name = "betweenness")) as [->|Hn].
      * rewrite (cut_weights_betweenness_absent (collected self)) by done.
        destruct (Hrec (PyNdarray (betweenness_values (WeightedEdges.network self)))
                    (WeightedEdges.set_network
                       (estimate_betweenness (WeightedEdges.network self))
                       (collected self))) as (? & ? & ? & ?).
        split; [simpl in *; congruence|]. split; [simpl in *; congruence|].
      split; [simpl in *; congruence|].
        split; [simpl in *; congruence|]. intros Hnot. by destruct Hnot.
      * rewrite (cut_weights_name_absent (collected self) name) by done.
        split; [simpl in *; congruence|]. split; [simpl in *; congruence|].
      split; [simpl in *; congruence|].
        split; [intros [[= ->] ?]; congruence|simpl in *; congruence].
  - rewrite (cut_weights_ndarray (collected self) a) by done.
    destruct (Hrec (PyNdarray a) (collected self)) as (? & ? & ? & ?).
    split; [simpl in *; congruence|]. split; [simpl in *; congruence|].
      split; [simpl in *; congruence|]. split; [by intros [? _]|simpl in *; congruence].
  - rewrite (cut_weights_string_array (collected self) sa) by done.
    destruct (Hrec (PyNdarrayStr sa) (collected self)) as (? & ? & ? & ?).
    split; [simpl in *; congruence|]. split; [simpl in *; congruence|].
      split; [simpl in *; congruence|]. split; [by intros [? _]|simpl in *; congruence].
  - rewrite (cut_weights_0d (collected self)) by done.
    destruct (Hrec PyNdarray0d (collected self)) as (? & ? & ? & ?).
    split; [simpl in *; congruence|]. split; [simpl in *; congruence|].
      split; [simpl in *; congruence|]. split; [by intros [? _]|simpl in *; congruence].
  - rewrite (cut_weights_not_array (collected self) (PyList l)) by (done || (simpl; congruence)).
    split; [simpl in *; congruence|]. split; [simpl in *; congruence|].
      split; [simpl in *; congruence|]. split; [by intros [? _]|simpl in *; congruence].
  - rewrite (cut_weights_not_array (collected self) (PyInt n)) by (done || (simpl; congruence)).
    split; [simpl in *; congruence|]. split; [simpl in *; congruence|].
      split; [simpl in *; congruence|]. split; [by intros [? _]|simpl in *; congruence].
  - rewrite (cut_weights_not_array (collected self) (PyFloat x)) by (done || (simpl; congruence)).
    split; [simpl in *; congruence|]. split; [simpl in *; congruence|].
      split; [simpl in *; congruence|]. split; [by intros [? _]|simpl in *; congruence].
Qed.

Lemma WeightedEdges_prepare_data_frame_witness :
  WeightedEdges.network
    (WeightedEdges.prepare_data
       (WeightedEdges.__init__ four_edges_with_speed (PyStr "betweenness") 0)).1
  = estimate_betweenness four_edges_with_speed
  ∧ WeightedEdges.network
      (WeightedEdges.prepare_data
         (WeightedEdges.__init__ four_edges_with_speed (PyStr "speed") 2)).1
    = four_edges_with_speed.
Proof.
  split.
  - apply (proj1 (proj2 (proj2 (proj2 (WeightedEdges_prepare_data_frame
             (WeightedEdges.__init__ four_edges_with_speed (PyStr "betweenness") 0)))))).
    split; [reflexivity | vm_compute; reflexivity].
  - apply (proj2 (proj2 (proj2 (proj2 (WeightedEdges_prepare_data_frame
             (WeightedEdges.__init__ four_edges_with_speed (PyStr "speed") 2)))))).
    intros [[=] _].
Defined.

(** X2. A group count below one is not refused by the constructor: it is the
    binning that refuses it, once the lines are collected, and nothing of
    the binning is recorded. *)
Theorem WeightedEdges_nonpositive_k (self : WeightedEdges.t) (w : list float64) :
  WeightedEdges.weights self = PyNdarray w →
  (WeightedEdges.k self < 1)%Z →
  WeightedEdges.prepare_data self =
    (collected self, Raised (ValueError "`bins` should be a positive integer.")).
Proof.
  intros Hw Hk. rewrite WeightedEdges_prepare_data_eq. fold (collected self).
  rewrite (cut_weights_ndarray (collected self) w) by done.
  unfold WeightedEdges_record. simpl WeightedEdges.k.
  unfold pd_cut, nbins_to_bins. replace (WeightedEdges.k self <? 1)%Z with true by lia.
  reflexivity.
Qed.

Lemma WeightedEdges_nonpositive_k_witness :
  WeightedEdges.prepare_data (WeightedEdges.__init__ four_edges (PyNdarray [1; 2]%float) 0)
  = (collected (WeightedEdges.__init__ four_edges (PyNdarray [1; 2]%float) 0),
     Raised (ValueError "`bins` should be a positive integer.")).
Proof.
  apply (WeightedEdges_nonpositive_k _ [1; 2]%float); [reflexivity | simpl; lia].
Defined.

(** ** WeightedEdges.render *)

Arguments bool_index : simpl never.
Arguments call_keywords : simpl never.
Arguments list_getitem : simpl never.

Lemma bool_index_array (rows : list (list point)) (mask : list bool) :
  length mask = length rows →
  bool_index (LineArray rows) mask = Ok (WeightedEdges.mask_select rows mask).
Proof. intros Hl. unfold bool_index. by rewrite bool_decide_eq_true_2. Qed.

Lemma bool_index_mismatch (rows : list (list point)) (mask : list bool) :
  length mask ≠ length rows →
  ∃ msg : string, bool_index (LineArray rows) mask = Err (IndexError msg).
Proof. intros Hl. unfold bool_index. rewrite bool_decide_eq_false_2 by done. by eexists. Qed.

Lemma list_getitem_nat {A} (a : list A) (i : nat) (x : A) :
  a !! i = Some x → list_getitem a (Z.of_nat i) = Ok x.
Proof.
  intros Hx. unfold list_getitem. rewrite (proj2 (Z.leb_le 0 (Z.of_nat i))) by lia.
  by rewrite Nat2Z.id, Hx.
Qed.

Lemma call_keywords_one_fresh (callee key : string) (v : kwarg) (kwargs : gmap string kwarg) :
  kwargs !! key = None →
  call_keywords callee [(key, v)] kwargs = Ok (<[key := v]> kwargs).
Proof.
  intros Hk. unfold call_keywords. rewrite filter_cons. simpl. rewrite Hk.
  rewrite decide_False by (by intros [? ?]). by rewrite filter_nil.
Qed.

Lemma call_keywords_one_twice (callee key : string) (v : kwarg) (kwargs : gmap string kwarg) :
  is_Some (kwargs !! key) →
  ∃ msg : string, call_keywords callee [(key, v)] kwargs = Err (TypeError msg).
Proof.
  intros Hk. unfold call_keywords. rewrite filter_cons. simpl.
  rewrite decide_True by done. by eexists.
Qed.

(** X6. The keywords that [render] passes on to the collections: "palette" is
    always taken out, "color" only when no palette is given; every other
    keyword is passed on as it is. *)
Theorem WeightedEdges_render_keywords (sns : Seaborn) (self : WeightedEdges.t)
    (kwargs kw : gmap string kwarg) (colors : list rgb) :
  WeightedEdges.edge_colors sns self kwargs = Ok (colors, kw) →
  (default KNone (kwargs !! "palette") = KNone →
   kw = delete "color" (delete "palette" kwargs)
   ∧ dark_palette sns (default (KStr "#a7a7a7") (kwargs !! "color")) (WeightedEdges.k self)
     = Ok (reverse colors))
  ∧ (default KNone (kwargs !! "palette") ≠ KNone →
     kw = delete "palette" kwargs
     ∧ color_palette sns (default KNone (kwargs !! "palette")) (WeightedEdges.k self)
       = Ok colors).
Proof.
  unfold WeightedEdges.edge_colors, kwargs_pop.
  destruct (default KNone (kwargs !! "palette")) as [|p|p|p] eqn:Hp.
  - rewrite lookup_delete_ne by done.
    destruct (dark_palette sns _ _) as [cs|e] eqn:Hd; simpl; [|done].
    intros [= <- <-]. split; [|done]. intros _. by rewrite reverse_involutive.
  - destruct (color_palette sns _ _) as [cs|e] eqn:Hd; simpl; [|done].
    intros [= <- <-]. split; [done|]. by intros _.
  - destruct (color_palette sns _ _) as [cs|e] eqn:Hd; simpl; [|done].
    intros [= <- <-]. split; [done|]. by intros _.
  - destruct (color_palette sns _ _) as [cs|e] eqn:Hd; simpl; [|done].
    intros [= <- <-]. split; [done|]. by intros _.
Qed.

Lemma WeightedEdges_render_keywords_witness :
  let self := WeightedEdges.__init__ four_edges (PyNdarray [1; 2; 3; 4]%float) 2 in
  let kwargs : gmap string kwarg :=
    <["color" := KStr "red"]> (<["alpha" := KNum (1 # 2)]> ∅) in
  let grey : rgb := (1 # 2, 1 # 2, 1 # 2) in
  delete "color" (delete "palette" kwargs) = delete "color" (delete "palette" kwargs)
  ∧ dark_palette grey_seaborn (default (KStr "#a7a7a7") (kwargs !! "color")) 2
    = Ok (reverse [grey; grey]).
Proof.
  intros self kwargs grey.
  apply (proj1 (WeightedEdges_render_keywords grey_seaborn self kwargs
                  (delete "color" (delete "palette" kwargs)) [grey; grey] eq_refl)).
  reflexivity.
Defined.

(** The loop of [render] when every bin can be drawn. *)
Lemma render_groups_drawn (self : WeightedEdges.t) (colors : list rgb)
    (kw : gmap string kwarg) (idx : list Z) (cs ax results : list LineCollection) :
  Forall2 (λ i c, WeightedEdges.group_collection self colors kw i = Ok c) idx cs →
  WeightedEdges.render_groups self colors kw idx ax results
  = (ax ++ cs, Ok (results ++ cs)).
Proof.
  intros Hall. revert ax results.
  induction Hall as [|i c idx cs Hi _ IH]; intros ax results; simpl.
  - by rewrite !app_nil_r.
  - rewrite Hi, IH. by rewrite <- !app_assoc.
Qed.

(** The collection of one bin of a prepared instance. *)
Lemma group_collection_prepared (self : WeightedEdges.t) (rows : list (list point))
    (groups : list (option Z)) (colors : list rgb) (kw : gmap string kwarg)
    (i : nat) (col : rgb) :
  WeightedEdges.lines self = LineArray rows →
  WeightedEdges.line_groups self = Some groups →
  length groups = length rows →
  colors !! i = Some col →
  kw !! "color" = None →
  WeightedEdges.group_collection self colors kw (Z.of_nat i)
  = Ok {| segments :=
            LineArray (WeightedEdges.mask_select rows
                         (WeightedEdges.group_mask groups (Z.of_nat i)));
          keywords := <["color" := KRgb col]> kw |}.
Proof.
  intros Hl Hg Hlen Hc Hk. unfold WeightedEdges.group_collection.
  rewrite Hg, Hl. simpl.
  rewrite bool_index_array by (unfold WeightedEdges.group_mask; by rewrite length_fmap).
  simpl. rewrite (list_getitem_nat _ _ _ Hc). simpl.
  rewrite call_keywords_one_fresh by done. reflexivity.
Qed.

(** Each row is counted in exactly one bin when every group is in [0, k). *)
Lemma sum_indicator (n : nat) (s k : nat) :
  sum_list_with (λ i, if bool_decide (n = i) then 1%nat else 0%nat) (seq s k)
  = if bool_decide (s ≤ n < s + k)%nat then 1%nat else 0%nat.
Proof.
  revert s. induction k as [|k IH]; intros s; simpl.
  - by rewrite bool_decide_eq_false_2 by lia.
  - rewrite IH. repeat case_bool_decide; lia.
Qed.

Lemma mask_select_cons {A} (r : A) (rows : list A) (b : bool) (mask : list bool) :
  WeightedEdges.mask_select (r :: rows) (b :: mask)
  = (if b then [r] else []) ++ WeightedEdges.mask_select rows mask.
Proof. reflexivity. Qed.

Lemma group_mask_cons (g : option Z) (groups : list (option Z)) (i : Z) :
  WeightedEdges.group_mask (g :: groups) i
  = bool_decide (g = Some i) :: WeightedEdges.group_mask groups i.
Proof. reflexivity. Qed.

Lemma batches_cover (rows : list (list point)) (groups : list (option Z)) (k : nat) :
  length groups = length rows →
  (∀ (j : nat) (g : Z), groups !! j = Some (Some g) →
     ∃ n : nat, g = Z.of_nat n ∧ (n < k)%nat) →
  sum_list_with
    (λ i, length (WeightedEdges.mask_select rows
                    (WeightedEdges.group_mask groups (Z.of_nat i))))
    (seq 0 k)
  = length (filter (λ g : option Z, is_Some g) groups).
Proof.
  revert groups. induction rows as [|r rows IH]; intros [|g groups] Hlen Hin; try done.
  - simpl. clear. induction (seq 0 k) as [|i l IHl]; [done|]. simpl. by rewrite IHl.
  - specialize (IH groups ltac:(by injection Hlen) (λ j, Hin (S j))).
    destruct g as [z|].
    + destruct (Hin 0%nat z eq_refl) as (n & -> & Hn).
      rewrite filter_cons_True by (by eexists). simpl length. rewrite <- IH.
      transitivity
        (sum_list_with (λ i, if bool_decide (n = i) then 1%nat else 0%nat) (seq 0 k)
         + sum_list_with
             (λ i, length (WeightedEdges.mask_select rows
                             (WeightedEdges.group_mask groups (Z.of_nat i)))) (seq 0 k))%nat.
      * clear. induction (seq 0 k) as [|i l IHl]; [done|].
        cbn [sum_list_with]. rewrite IHl.
        rewrite ?group_mask_cons, mask_select_cons, length_app.
        repeat case_bool_decide; simplify_eq; simpl; lia.
      * rewrite sum_indicator. rewrite bool_decide_eq_true_2 by lia. done.
    + rewrite filter_cons_False by (by intros [? ?]). rewrite <- IH.
      clear. induction (seq 0 k) as [|i l IHl]; [done|].
      cbn [sum_list_with]. rewrite IHl.
      rewrite ?group_mask_cons, mask_select_cons, length_app.
      rewrite bool_decide_eq_false_2 by done. reflexivity.
Qed.

(** X7. After a returned [prepare_data] with weights aligned to the edges,
    [render] draws one collection per bin, in the order of the bins, adds
    them after what the axes already hold and returns them; the collection
    of bin [i] has the lines of the edges of bin [i] and the [i]-th colour.
    An edge that has a bin is drawn in exactly one collection and an edge
    without one (a NaN label) in none: the collections together hold as
    many lines as there are edges with a bin. *)
Theorem WeightedEdges_render_batches (sns : Seaborn) (self0 self : WeightedEdges.t)
    (w : list float64) (ax : list LineCollection) (kwargs kw : gmap string kwarg)
    (colors : list rgb) :
  WeightedEdges.weights self0 = PyNdarray w →
  length w = length (WeightedEdges.data self0) →
  WeightedEdges.prepare_data self0 = (self, Returned tt) →
  WeightedEdges.edge_colors sns self kwargs = Ok (colors, kw) →
  length colors = Z.to_nat (WeightedEdges.k self) →
  kw !! "color" = None →
  ∃ (groups : list (option Z)) (batches : list LineCollection),
    WeightedEdges.line_groups self = Some groups
    ∧ WeightedEdges.render sns self ax kwargs = (ax ++ batches, Ok batches)
    ∧ length batches = Z.to_nat (WeightedEdges.k self)
    ∧ (∀ i : nat, (i < Z.to_nat (WeightedEdges.k self))%nat →
         batches !! i
         = bin_batch (coords <$> (points <$> WeightedEdges.data self0)) groups colors kw i)
    ∧ sum_list_with segment_count batches
      = length (filter (λ g : option Z, is_Some g) groups)
    ∧ ((∀ g : option Z, g ∈ groups → is_Some g) →
       sum_list_with segment_count batches = length (WeightedEdges.data self0)).
Proof.
  intros Hw Hlen Hrun Hcol Hncol Hkw.
  destruct (prepare_ndarray_returned self0 self w Hw Hrun)
    as (bins & Hne & Hk & Hblen & ->).
  set (rows := coords <$> (points <$> WeightedEdges.data self0)).
  set (groups := bin_of bins <$> w).
  set (self := WeightedEdges.set_line_groups _ _) in *.
  assert (WeightedEdges.k self = WeightedEdges.k self0) as Hkeq by reflexivity.
  rewrite Hkeq in *.
  assert (length groups = length rows) as Hgl.
  { subst groups rows. by rewrite !length_fmap. }
  set (batch := λ i : nat, bin_batch rows groups colors kw i).
  assert (∀ i, (i < Z.to_nat (WeightedEdges.k self0))%nat → is_Some (batch i)) as Hsome.
  { intros i Hi. subst batch. unfold bin_batch. simpl.
    destruct (colors !! i) as [col|] eqn:Hc; [by eexists|].
    apply lookup_ge_None in Hc. lia. }
  set (n := Z.to_nat (WeightedEdges.k self0)) in *.
  assert (∃ batches, length batches = n
            ∧ ∀ i, (i < n)%nat → batches !! i = batch i) as (batches & Hbl & Hbi).
  { clear -Hsome. induction n as [|m IH].
    - exists []. split; [done|]. intros; lia.
    - destruct IH as (bs & Hl & Hb); [intros; apply Hsome; lia|].
      destruct (Hsome m ltac:(lia)) as [c Hc].
      exists (bs ++ [c]). split; [rewrite length_app; simpl; lia|].
      intros i Hi. destruct (decide (i = m)) as [->|Hne].
      + rewrite lookup_app_r by lia. rewrite Hl, Nat.sub_diag. by rewrite Hc.
      + rewrite lookup_app_l by lia. apply Hb. lia. }
  assert (sum_list_with segment_count batches
          = length (filter (λ g : option Z, is_Some g) groups)) as Hsum; last first.
  { exists groups, batches. split; [reflexivity|].
    split; [|split; [exact Hbl|split; [exact Hbi|split; [exact Hsum|]]]].
    - unfold WeightedEdges.render. rewrite Hcol, Hkeq.
      rewrite (render_groups_drawn self colors kw _ batches ax []); [done|].
      unfold WeightedEdges.range. fold n.
      apply Forall2_fmap_l, Forall2_lookup. intros i.
      destruct (decide (i < n)%nat) as [Hi|Hi].
      + rewrite (Hbi i Hi). rewrite (lookup_seq_lt _ _ _ Hi). simpl.
        subst batch. simpl. unfold bin_batch.
        destruct (colors !! i) as [col|] eqn:Hc; [|apply lookup_ge_None in Hc; lia].
        simpl. constructor.
        by apply (group_collection_prepared self rows groups colors kw i col).
      + rewrite (lookup_ge_None_2 batches i) by lia.
        rewrite (lookup_ge_None_2 (seq 0 n) i) by (rewrite length_seq; lia).
        constructor.
    - intros Hall. rewrite Hsum, <- Hlen.
      replace (length w) with (length groups) by (subst groups; by rewrite length_fmap).
      f_equal. clear -Hall. induction groups as [|g groups IH]; [done|].
      rewrite filter_cons_True by (apply Hall; by left).
      f_equal. apply IH. intros g' Hg'. apply Hall. by right. }
  transitivity
    (sum_list_with
       (λ i, length (WeightedEdges.mask_select rows
                       (WeightedEdges.group_mask groups (Z.of_nat i)))) (seq 0 n)).
  - clear -Hbl Hbi. revert batches Hbl Hbi. induction n as [|m IH]; intros batches Hbl Hbi.
    + by destruct batches.
    + destruct (decide (batches = [])) as [->|Hne]; [done|].
      destruct (exists_last Hne) as (bs & c & ->).
      rewrite length_app in Hbl. simpl in Hbl.
      rewrite seq_S, !sum_list_with_app. simpl.
      rewrite (IH bs) by
        (lia || (intros i Hi; rewrite <- (Hbi i) by lia; by rewrite lookup_app_l by lia)).
      f_equal. specialize (Hbi m ltac:(lia)).
      rewrite lookup_app_r in Hbi by lia.
      replace (m - length bs)%nat with 0%nat in Hbi by lia. simpl in Hbi.
      subst batch. unfold bin_batch in Hbi.
      destruct (colors !! m); simpl in Hbi; [|done]. injection Hbi as ->.
      unfold segment_count. simpl. lia.
  - apply (batches_cover rows groups n Hgl).
    intros j g Hg. subst groups. rewrite list_lookup_fmap in Hg.
    destruct (w !! j) as [x|]; [|done]. injection Hg as Hg.
    destruct (bin_of_Some _ _ _ Hg) as (H0 & Hup & _).
    exists (Z.to_nat g). split; lia.
Qed.

Lemma WeightedEdges_render_batches_witness :
  let self0 := WeightedEdges.__init__ four_edges (PyNdarray [1; nan; 3; 4]%float) 2 in
  let self := (WeightedEdges.prepare_data self0).1 in
  let grey : rgb := (1 # 2, 1 # 2, 1 # 2) in
  ∃ (groups : list (option Z)) (batches : list LineCollection),
    WeightedEdges.line_groups self = Some groups
    ∧ WeightedEdges.render grey_seaborn self [] ∅ = ([] ++ batches, Ok batches)
    ∧ length batches = Z.to_nat (WeightedEdges.k self)
    ∧ (∀ i : nat, (i < Z.to_nat (WeightedEdges.k self))%nat →
         batches !! i
         = bin_batch (coords <$> (points <$> WeightedEdges.data self0)) groups
             [grey; grey] (delete "color" (delete "palette" ∅)) i)
    ∧ sum_list_with segment_count batches
      = length (filter (λ g : option Z, is_Some g) groups)
    ∧ ((∀ g : option Z, g ∈ groups → is_Some g) →
       sum_list_with segment_count batches = length (WeightedEdges.data self0)).
Proof.
  intros self0 self grey.
  apply (WeightedEdges_render_batches grey_seaborn self0 self [1; nan; 3; 4]%float
           [] ∅ (delete "color" (delete "palette" ∅)) [grey; grey]); reflexivity.
Defined.

(** The first bin that cannot be drawn ends [render]: nothing is added to
    the axes for it. *)
Lemma render_groups_first_fails (self : WeightedEdges.t) (colors : list rgb)
    (kw : gmap string kwarg) (i : Z) (rest : list Z) (ax results : list LineCollection)
    (e : exn) :
  WeightedEdges.group_collection self colors kw i = Err e →
  WeightedEdges.render_groups self colors kw (i :: rest) ax results = (ax, Err e).
Proof. intros Hi. simpl. by rewrite Hi. Qed.

Lemma range_pos (k : Z) :
  (1 ≤ k)%Z → ∃ rest : list Z, WeightedEdges.range k = 0%Z :: rest.
Proof.
  intros Hk. unfold WeightedEdges.range.
  destruct (Z.to_nat k) as [|n] eqn:Hn; [lia|]. simpl. by eexists.
Qed.

Lemma range_nonpos (k : Z) : (k < 1)%Z → WeightedEdges.range k = [].
Proof.
  intros Hk. unfold WeightedEdges.range. by replace (Z.to_nat k) with 0%nat by lia.
Qed.

(** X8. [render] on an instance that has no bin assignment, as constructed or
    after [prepare_data] raised: with k >= 1 it raises AttributeError and
    draws nothing; with k < 1 it returns no collection at all. *)
Theorem WeightedEdges_render_unprepared (sns : Seaborn) (net : Network) (w : pyvalue)
    (k0 : Z) (self : WeightedEdges.t) (ax : list LineCollection)
    (kwargs kw : gmap string kwarg) (colors : list rgb) :
  (self = WeightedEdges.__init__ net w k0
   ∨ ∃ e : exn,
       WeightedEdges.prepare_data (WeightedEdges.__init__ net w k0) = (self, Raised e)) →
  WeightedEdges.edge_colors sns self kwargs = Ok (colors, kw) →
  ((1 ≤ k0)%Z →
   WeightedEdges.render sns self ax kwargs
   = (ax, Err (AttributeError
                      "'WeightedEdges' object has no attribute 'line_groups'")))
  ∧ ((k0 < 1)%Z → WeightedEdges.render sns self ax kwargs = (ax, Ok [])).
Proof.
  intros Hself Hcol.
  assert (WeightedEdges.line_groups self = None ∧ WeightedEdges.k self = k0) as [Hg Hk].
  { destruct Hself as [->|[e Hrun]]; [done|].
    pose proof (WeightedEdges_prepare_data_k (WeightedEdges.__init__ net w k0)) as Hk.
    rewrite Hrun in Hk. simpl in Hk.
    rewrite WeightedEdges_prepare_data_eq in Hrun.
    apply cut_weights_raised in Hrun as (_ & Hg & _). done. }
  unfold WeightedEdges.render. rewrite Hcol, Hk. split; intros Hk0.
  - destruct (range_pos k0 Hk0) as [rest ->].
    apply render_groups_first_fails. unfold WeightedEdges.group_collection.
    by rewrite Hg.
  - by rewrite range_nonpos.
Qed.

Lemma WeightedEdges_render_unprepared_witness :
  WeightedEdges.render grey_seaborn
    (WeightedEdges.__init__ four_edges (PyNdarray [1; 2; 3; 4]%float) 2) [] ∅
  = ([], Err (AttributeError
                     "'WeightedEdges' object has no attribute 'line_groups'"))
  ∧ WeightedEdges.render grey_seaborn
      (WeightedEdges.prepare_data (WeightedEdges.__init__ four_edges (PyStr "speed") 0)).1
      [] ∅
    = ([], Ok []).
Proof.
  split.
  - apply (WeightedEdges_render_unprepared grey_seaborn four_edges
             (PyNdarray [1; 2; 3; 4]%float) 2
             (WeightedEdges.__init__ four_edges (PyNdarray [1; 2; 3; 4]%float) 2)
             [] ∅ (delete "color" (delete "palette" ∅))
             (reverse (replicate 2 (1 # 2, 1 # 2, 1 # 2)))).
    + left. reflexivity.
    + reflexivity.
    + lia.
  - apply (WeightedEdges_render_unprepared grey_seaborn four_edges (PyStr "speed") 0
             (WeightedEdges.prepare_data
                (WeightedEdges.__init__ four_edges (PyStr "speed") 0)).1
             [] ∅ (delete "color" (delete "palette" ∅)) []).
    + right. exists (Exception "weights must be a valid edge property if str").
      reflexivity.
    + reflexivity.
    + lia.
Defined.

(** X9. A "color" keyword given together with a palette is not consumed and
    reaches the collection a second time: [render] raises TypeError at the
    first bin and draws nothing. *)
Theorem WeightedEdges_render_palette_and_color (sns : Seaborn) (self0 self : WeightedEdges.t)
    (w : list float64) (ax : list LineCollection) (kwargs : gmap string kwarg)
    (colors : list rgb) :
  WeightedEdges.weights self0 = PyNdarray w →
  length w = length (WeightedEdges.data self0) →
  WeightedEdges.prepare_data self0 = (self, Returned tt) →
  default KNone (kwargs !! "palette") ≠ KNone →
  is_Some (kwargs !! "color") →
  color_palette sns (default KNone (kwargs !! "palette")) (WeightedEdges.k self) = Ok colors →
  colors ≠ [] →
  ∃ msg : string, WeightedEdges.render sns self ax kwargs = (ax, Err (TypeError msg)).
Proof.
  intros Hw Hlen Hrun Hpal Hcolor Hsns Hne.
  destruct (prepare_ndarray_returned self0 self w Hw Hrun)
    as (bins & _ & Hk & _ & Hself).
  assert (WeightedEdges.line_groups self = Some (bin_of bins <$> w)) as Hg
    by (by rewrite Hself).
  assert (WeightedEdges.lines self
          = LineArray (coords <$> (points <$> WeightedEdges.data self0))) as Hl
    by (by rewrite Hself).
  assert (WeightedEdges.k self = WeightedEdges.k self0) as Hkk by (by rewrite Hself).
  clear Hself Hrun.
  assert (WeightedEdges.edge_colors sns self kwargs
          = Ok (colors, delete "palette" kwargs)) as Hcol.
  { unfold WeightedEdges.edge_colors, kwargs_pop.
    destruct (default KNone (kwargs !! "palette")); [done|..]; by rewrite Hsns. }
  destruct colors as [|col colors]; [done|].
  destruct (call_keywords_one_twice "LineCollection" "color" (KRgb col)
              (delete "palette" kwargs)) as [msg Hmsg].
  { by rewrite lookup_delete_ne. }
  exists msg. unfold WeightedEdges.render. rewrite Hcol, Hkk.
  destruct (range_pos (WeightedEdges.k self0) Hk) as [rest ->].
  apply render_groups_first_fails. unfold WeightedEdges.group_collection.
  rewrite Hg, Hl. simpl.
  rewrite bool_index_array
    by (unfold WeightedEdges.group_mask; rewrite !length_fmap; exact Hlen).
  simpl. by rewrite Hmsg.
Qed.

Lemma WeightedEdges_render_palette_and_color_witness :
  ∃ msg : string,
    WeightedEdges.render grey_seaborn
      (WeightedEdges.prepare_data
         (WeightedEdges.__init__ four_edges (PyNdarray [1; 2; 3; 4]%float) 2)).1
      []
      (<["palette" := KStr "viridis"]> (<["color" := KStr "red"]> ∅))
    = ([], Err (TypeError msg)).
Proof.
  apply (WeightedEdges_render_palette_and_color grey_seaborn
           (WeightedEdges.__init__ four_edges (PyNdarray [1; 2; 3; 4]%float) 2)
           _ [1; 2; 3; 4]%float []
           (<["palette" := KStr "viridis"]> (<["color" := KStr "red"]> ∅))
           (replicate 2 (1 # 2, 1 # 2, 1 # 2)));
    try reflexivity; try discriminate.
  by eexists.
Defined.

(** X10. The weights are not checked against the number of edges: with an array
    of another length [prepare_data] returns all the same, the bin
    assignment has the length of the array, and [render] then raises
    IndexError at the first bin and draws nothing. *)
Theorem WeightedEdges_misaligned_weights (sns : Seaborn) (self0 self : WeightedEdges.t)
    (w : list float64) (ax : list LineCollection) (kwargs kw : gmap string kwarg)
    (colors : list rgb) :
  WeightedEdges.weights self0 = PyNdarray w →
  length w ≠ length (WeightedEdges.data self0) →
  WeightedEdges.prepare_data self0 = (self, Returned tt) →
  WeightedEdges.edge_colors sns self kwargs = Ok (colors, kw) →
  (∃ groups : list (option Z),
     WeightedEdges.line_groups self = Some groups ∧ length groups = length w)
  ∧ lines_count (WeightedEdges.lines self) = length (WeightedEdges.data self0)
  ∧ ∃ msg : string,
      WeightedEdges.render sns self ax kwargs = (ax, Err (IndexError msg)).
Proof.
  intros Hw Hlen Hrun Hcol.
  destruct (prepare_ndarray_returned self0 self w Hw Hrun)
    as (bins & _ & Hk & _ & Hself).
  assert (WeightedEdges.line_groups self = Some (bin_of bins <$> w)) as Hg
    by (by rewrite Hself).
  assert (WeightedEdges.lines self
          = LineArray (coords <$> (points <$> WeightedEdges.data self0))) as Hl
    by (by rewrite Hself).
  assert (WeightedEdges.k self = WeightedEdges.k self0) as Hkk by (by rewrite Hself).
  clear Hself Hrun.
  split; [eexists; split; [exact Hg | by rewrite length_fmap]|].
  split; [rewrite Hl; unfold lines_count; by rewrite !length_fmap|].
  destruct (bool_index_mismatch (coords <$> (points <$> WeightedEdges.data self0))
              (WeightedEdges.group_mask (bin_of bins <$> w) 0)) as [msg Hmsg].
  { unfold WeightedEdges.group_mask. by rewrite !length_fmap. }
  exists msg. unfold WeightedEdges.render. rewrite Hcol, Hkk.
  destruct (range_pos (WeightedEdges.k self0) Hk) as [rest ->].
  apply render_groups_first_fails. unfold WeightedEdges.group_collection.
  rewrite Hg, Hl. simpl. by rewrite Hmsg.
Qed.

Lemma WeightedEdges_misaligned_weights_witness :
  let self := (WeightedEdges.prepare_data
                 (WeightedEdges.__init__ four_edges (PyNdarray [1; 2; 3]%float) 2)).1 in
  (∃ groups : list (option Z),
     WeightedEdges.line_groups self = Some groups ∧ length groups = 3%nat)
  ∧ lines_count (WeightedEdges.lines self) = 4%nat
  ∧ ∃ msg : string,
      WeightedEdges.render grey_seaborn self [] ∅ = ([], Err (IndexError msg)).
Proof.
  intros self.
  apply (WeightedEdges_misaligned_weights grey_seaborn
           (WeightedEdges.__init__ four_edges (PyNdarray [1; 2; 3]%float) 2)
           self [1; 2; 3]%float [] ∅ (delete "color" (delete "palette" ∅))
           (reverse (replicate 2 (1 # 2, 1 # 2, 1 # 2))));
    try reflexivity.
  simpl. lia.
Defined.

(** ** PlainEdges: drawing *)

(** X12. [PlainEdges.prepare_data] returns whatever [lines] held before, and
    [render] then adds to the axes one collection of all the edge geometries,
    in edge order, made with the four drawing parameters and every further
    keyword; the width is passed as "linewidths", so that a caller's own
    "linewidths" keyword is a TypeError and nothing is drawn. *)
Theorem PlainEdges_render_collection (self0 : PlainEdges.t) (ax : list LineCollection)
    (color linewidth linestyle alpha : kwarg) (kwargs : gmap string kwarg) :
  kwargs !! "color" = None → kwargs !! "linewidth" = None →
  kwargs !! "linestyle" = None → kwargs !! "alpha" = None →
  let self := (PlainEdges.prepare_data self0).1 in
  (PlainEdges.prepare_data self0).2 = Returned tt
  ∧ (kwargs !! "linewidths" = None →
     ∃ c : LineCollection,
       PlainEdges.render self ax color linewidth linestyle alpha kwargs
       = (ax ++ [c], Ok c)
       ∧ segments c = LineArray (coords <$> (points <$> PlainEdges.data self0))
       ∧ keywords c !! "color" = Some color
       ∧ keywords c !! "linewidths" = Some linewidth
       ∧ keywords c !! "linestyle" = Some linestyle
       ∧ keywords c !! "alpha" = Some alpha
       ∧ ∀ (key : string) (v : kwarg), kwargs !! key = Some v → keywords c !! key = Some v)
  ∧ (is_Some (kwargs !! "linewidths") →
     ∃ msg : string,
       PlainEdges.render self ax color linewidth linestyle alpha kwargs
       = (ax, Err (TypeError msg))).
Proof.
  intros Hc Hw Hs Ha self. subst self. rewrite PlainEdges_prepare_data_eq.
  cbn [fst snd]. split; [done|].
  unfold PlainEdges.render, call_keywords.
  rewrite !filter_cons, filter_nil. cbn [fst snd]. rewrite Hc, Hs, Ha.
  rewrite !(decide_False (P := is_Some None)) by (by intros [? ?]).
  split.
  - intros Hlw. rewrite Hlw.
    rewrite !(decide_False (P := is_Some None)) by (by intros [? ?]).
    eexists. split; [reflexivity|]. cbn [segments keywords foldl fst snd].
    split; [done|].
    split; [by rewrite !lookup_insert_ne, lookup_insert_eq by done|].
    split; [by rewrite !lookup_insert_ne, lookup_insert_eq by done|].
    split; [by rewrite !lookup_insert_ne, lookup_insert_eq by done|].
    split; [by rewrite lookup_insert_eq|].
    intros key v Hkey.
    rewrite !lookup_insert_ne; [done|..]; intros <-; congruence.
  - intros Hlw. rewrite decide_True by done. by eexists.
Qed.

Lemma PlainEdges_render_collection_witness :
  let self := (PlainEdges.prepare_data (PlainEdges.__init__ four_edges)).1 in
  let kwargs : gmap string kwarg := <["zorder" := KNum 2]> ∅ in
  (PlainEdges.prepare_data (PlainEdges.__init__ four_edges)).2 = Returned tt
  ∧ (kwargs !! "linewidths" = None →
     ∃ c : LineCollection,
       PlainEdges.render self [] PlainEdges.default_color PlainEdges.default_linewidth
         PlainEdges.default_linestyle PlainEdges.default_alpha kwargs
       = ([] ++ [c], Ok c)
       ∧ segments c
         = LineArray (coords <$> (points <$> PlainEdges.data (PlainEdges.__init__ four_edges)))
       ∧ keywords c !! "color" = Some PlainEdges.default_color
       ∧ keywords c !! "linewidths" = Some PlainEdges.default_linewidth
       ∧ keywords c !! "linestyle" = Some PlainEdges.default_linestyle
       ∧ keywords c !! "alpha" = Some PlainEdges.default_alpha
       ∧ ∀ (key : string) (v : kwarg), kwargs !! key = Some v → keywords c !! key = Some v)
  ∧ (is_Some (kwargs !! "linewidths") →
     ∃ msg : string,
       PlainEdges.render self [] PlainEdges.default_color PlainEdges.default_linewidth
         PlainEdges.default_linestyle PlainEdges.default_alpha kwargs
       = ([], Err (TypeError msg))).
Proof.
  intros self kwargs.
  apply (PlainEdges_render_collection (PlainEdges.__init__ four_edges) []
           PlainEdges.default_color PlainEdges.default_linewidth
           PlainEdges.default_linestyle PlainEdges.default_alpha kwargs);
    reflexivity.
Defined.

(** ** ODGradient: the resampled curves *)

(** [linspace 0 1 n] for any [n >= 0]: [n] samples, the [i]-th at
    [i / (n - 1)] (at 0 when there is one sample only). *)
Lemma linspace_unit_samples (n : Z) :
  (0 ≤ n)%Z →
  ∃ l : list Q,
    linspace 0 1 n = Returned l
    ∧ length l = Z.to_nat n
    ∧ ∀ (i : nat) (x : Q), l !! i = Some x → x == sample_position n i.
Proof.
  intros Hn. destruct (decide (2 ≤ n)%Z) as [H2|H2].
  - destruct (linspace_samples 0 1 (n - 1) ltac:(lia)) as (l & Hl & Hlen & Hnth).
    replace (n - 1 + 1)%Z with n in * by lia.
    exists l. split; [done|]. split; [done|].
    intros i x Hx. rewrite (Hnth i x Hx). unfold sample_position.
    rewrite Z.max_r by lia.
    pose proof (inject_Z_pos_neq0 (n - 1) ltac:(lia)) as Hn0.
    field. exact Hn0.
  - assert (n = 0 ∨ n = 1)%Z as [->| ->] by lia.
    + exists []. by repeat split.
    + exists [0 * (1 - 0) + 0]. split; [reflexivity|]. split; [reflexivity|].
      intros [|i] x Hx; [|done]. injection Hx as <-. reflexivity.
Qed.

Lemma point_between_proper (e : Edge) (t t' : Q) :
  t == t' → point_eq (point_between e t) (point_between e t').
Proof.
  intros Ht. unfold point_eq, point_between, point_add, point_scale. simpl.
  split; by rewrite Ht.
Qed.

(** The state [prepare_data] leaves, for any [n_points >= 0]. *)
Lemma ODGradient_prepared_curves (self : ODGradient.t) :
  (0 ≤ ODGradient.n_points self)%Z →
  ∃ interp : list Q,
    linspace 0 1 (ODGradient.n_points self) = Returned interp
    ∧ (ODGradient.prepare_data self).2 = Returned tt
    ∧ curves (ODGradient.colored_curves (ODGradient.prepare_data self).1)
      = curves (ODGradient.colored_curves self)
        ++ (ODGradient.edge_curve interp <$> ODGradient.data self).
Proof.
  intros Hn. destruct (linspace_returns 0 1 _ Hn) as [interp Hi].
  exists interp. split; [done|]. rewrite ODGradient_prepare_data_eq, Hi.
  split; [done|]. cbn [fst ODGradient.colored_curves ODGradient.set_colored_curves].
  apply curves_add_curves.
Qed.

(** X13. A straight edge held as a Python list of two points is replaced by
    [n_points] points evenly spaced from the source to the target: point
    [i] is [source * (1 - t) + target * t] at [t = i / (n_points - 1)].  The
    curve of edge [j] comes [j] places after the curves held before.  With
    [n_points = 1] the curve is the source alone, with [n_points = 0] it has
    no point. *)
Theorem ODGradient_resampled_points (self : ODGradient.t) (j : nat) (e : Edge)
    (p q : point) :
  (0 ≤ ODGradient.n_points self)%Z →
  ODGradient.data self !! j = Some e →
  points e = PointList [p; q] →
  ∃ pts : list point,
    (ODGradient.prepare_data self).2 = Returned tt
    ∧ curves (ODGradient.colored_curves (ODGradient.prepare_data self).1)
        !! (length (curves (ODGradient.colored_curves self)) + j)%nat
      = Some (PointArray pts)
    ∧ length pts = Z.to_nat (ODGradient.n_points self)
    ∧ ∀ (i : nat) (pt : point),
        pts !! i = Some pt →
        point_eq pt (point_between e (sample_position (ODGradient.n_points self) i)).
Proof.
  intros Hn He Hp.
  destruct (ODGradient_prepared_curves self Hn) as (interp & Hi & Hret & Hcurves).
  destruct (linspace_unit_samples _ Hn) as (l & Hl & Hlen & Hnth).
  rewrite Hl in Hi. injection Hi as <-.
  exists (point_between e <$> l). split; [done|]. split.
  - rewrite Hcurves, lookup_app_r by lia.
    replace (length (curves (ODGradient.colored_curves self)) + j
             - length (curves (ODGradient.colored_curves self)))%nat with j by lia.
    rewrite list_lookup_fmap, He. simpl.
    by rewrite (edge_curve_list_segment l e p q Hp).
  - split; [by rewrite length_fmap|].
    intros i pt Hpt. rewrite list_lookup_fmap in Hpt.
    destruct (l !! i) as [t|] eqn:Ht; [|done]. injection Hpt as <-.
    apply point_between_proper. by apply Hnth.
Qed.

Lemma ODGradient_resampled_points_witness :
  let self := ODGradient.__init__ two_way 3 in
  ∃ pts : list point,
    (ODGradient.prepare_data self).2 = Returned tt
    ∧ curves (ODGradient.colored_curves (ODGradient.prepare_data self).1)
        !! (length (curves (ODGradient.colored_curves self)) + 1)%nat
      = Some (PointArray pts)
    ∧ length pts = Z.to_nat (ODGradient.n_points self)
    ∧ ∀ (i : nat) (pt : point),
        pts !! i = Some pt →
        point_eq pt (point_between (straight_edge 1 0)
                       (sample_position (ODGradient.n_points self) i)).
Proof.
  intros self.
  apply (ODGradient_resampled_points self 1 (straight_edge 1 0) (0, 0) (10 # 1, 0));
    [simpl; lia | reflexivity | reflexivity].
Defined.

(** X14. The curves are kept in edge order after the curves held before, which
    stay as they are; a geometry that is no list of two points (more or
    fewer points, or an array) is stored unchanged. *)
Theorem ODGradient_curves_in_order (self : ODGradient.t) (j : nat) (e : Edge) :
  (0 ≤ ODGradient.n_points self)%Z →
  ODGradient.data self !! j = Some e →
  let before := curves (ODGradient.colored_curves self) in
  let after := curves (ODGradient.colored_curves (ODGradient.prepare_data self).1) in
  length after = (length before + length (ODGradient.data self))%nat
  ∧ (∀ (i : nat) (g : geometry), before !! i = Some g → after !! i = Some g)
  ∧ (n_rows (points e) ≠ 2%Z ∨ type_of_geometry (points e) ≠ py_list →
     after !! (length before + j)%nat = Some (points e)).
Proof.
  intros Hn He before after.
  destruct (ODGradient_prepared_curves self Hn) as (interp & Hi & Hret & Hcurves).
  subst before after. rewrite Hcurves. split; [by rewrite length_app, length_fmap|].
  split; [intros i g Hg; by apply lookup_app_l_Some|].
  intros Hkept. rewrite lookup_app_r by lia.
  replace (length (curves (ODGradient.colored_curves self)) + j
           - length (curves (ODGradient.colored_curves self)))%nat with j by lia.
  rewrite list_lookup_fmap, He. simpl. f_equal.
  unfold ODGradient.edge_curve.
  destruct (points e) as [pts|pts] eqn:Hp.
  - destruct Hkept as [Hrows|Htype]; [|by destruct Htype].
    rewrite (proj2 (Z.eqb_neq _ _) Hrows). by rewrite !andb_false_r.
  - reflexivity.
Qed.

Lemma ODGradient_curves_in_order_witness :
  let self := ODGradient.__init__ straight_and_curved 3 in
  let before := curves (ODGradient.colored_curves self) in
  let after := curves (ODGradient.colored_curves (ODGradient.prepare_data self).1) in
  length after = (length before + length (ODGradient.data self))%nat
  ∧ (∀ (i : nat) (g : geometry), before !! i = Some g → after !! i = Some g)
  ∧ (n_rows (points curved_edge) ≠ 2%Z ∨ type_of_geometry (points curved_edge) ≠ py_list →
     after !! (length before + 1)%nat = Some (points curved_edge)).
Proof.
  intros self.
  apply (ODGradient_curves_in_order self 1 curved_edge); [simpl; lia | reflexivity].
Defined.

(** ** CommunityGradient: group contents and colours *)

Section Groups.
Context {L : Type} {EqL : EqDecision L} {CountL : Countable L}.
Implicit Types (self : CommunityGradient.t L) (pair : L * L) (es : list Edge).

Lemma group_curves_add pair pair' g self :
  group_curves (CommunityGradient.add_to_links pair g 1 self) pair' =
    group_curves self pair' ++ (if decide (pair = pair') then [g] else []).
Proof.
  unfold group_curves, CommunityGradient.add_to_links. simpl.
  destruct (decide (pair = pair')) as [->|Hne].
  - rewrite lookup_insert_eq. simpl.
    by destruct (CommunityGradient.community_links self !! pair').
  - rewrite lookup_insert_ne by done. by rewrite app_nil_r.
Qed.

Lemma group_weights_add pair pair' g self :
  group_weights (CommunityGradient.add_to_links pair g 1 self) pair' =
    group_weights self pair' ++ (if decide (pair = pair') then [1%Z] else []).
Proof.
  unfold group_weights, CommunityGradient.add_to_links. simpl.
  destruct (decide (pair = pair')) as [->|Hne].
  - rewrite lookup_insert_eq. simpl.
    by destruct (CommunityGradient.community_links self !! pair').
  - rewrite lookup_insert_ne by done. by rewrite app_nil_r.
Qed.

(** The loop of [prepare_data] over edges with valid node indices: what
    each group holds afterwards. *)
Lemma CommunityGradient_loop_contents es self :
  (∀ e, e ∈ es →
     is_Some (CommunityGradient.community_pair (CommunityGradient.node_communities self) e)) →
  ∃ self',
    for_each (λ edge_data,
        self ← get ;
        pair ← lift (CommunityGradient.edge_pair
                       (CommunityGradient.node_communities self) edge_data) ;
        CommunityGradient.links_add_curve pair (points edge_data) 1) es self
    = (self', Returned tt)
    ∧ CommunityGradient.node_communities self' = CommunityGradient.node_communities self
    ∧ CommunityGradient.data self' = CommunityGradient.data self
    ∧ ∀ pair,
        group_curves self' pair
        = group_curves self pair
          ++ (points <$> edges_of_pair (CommunityGradient.node_communities self) pair es)
        ∧ group_weights self' pair
          = group_weights self pair
            ++ replicate
                 (length (edges_of_pair (CommunityGradient.node_communities self) pair es))
                 1%Z.
Proof.
  revert self. induction es as [|e es IH]; intros self Hvalid.
  - exists self. simpl. split; [done|]. split; [done|]. split; [done|].
    intros pair. unfold edges_of_pair. simpl. by rewrite !app_nil_r.
  - destruct (Hvalid e ltac:(left)) as [pair Hpair].
    assert (CommunityGradient.edge_pair (CommunityGradient.node_communities self) e
            = Returned pair) as Hrun.
    { unfold CommunityGradient.community_pair in Hpair.
      destruct (CommunityGradient.edge_pair _ e); congruence. }
    destruct (IH (CommunityGradient.add_to_links pair (points e) 1 self))
      as (self' & Hloop & Hc & Hd & Hcont).
    { intros e' He'. apply Hvalid. by right. }
    change (CommunityGradient.node_communities
              (CommunityGradient.add_to_links pair (points e) 1 self))
      with (CommunityGradient.node_communities self) in *.
    change (CommunityGradient.data (CommunityGradient.add_to_links pair (points e) 1 self))
      with (CommunityGradient.data self) in *.
    exists self'. simpl for_each.
    split. { py_unfold. rewrite Hrun. py_unfold. exact Hloop. }
    split; [done|]. split; [done|].
    intros pair'. destruct (Hcont pair') as [Hcv Hwt].
    rewrite Hcv, Hwt, group_curves_add, group_weights_add.
    rewrite !edges_of_pair_filter, filter_cons, Hpair.
    destruct (decide (pair = pair')) as [->|Hne].
    + rewrite decide_True by done. simpl. by rewrite <- !app_assoc.
    + rewrite decide_False by congruence. by rewrite !app_nil_r.
Qed.

Lemma edge_pair_raised (communities : list L) (e : Edge) (x : exn) :
  CommunityGradient.edge_pair communities e = Raised x →
  ∃ msg : string, x = IndexError msg.
Proof.
  unfold CommunityGradient.edge_pair, np_getitem. py_unfold.
  repeat (match goal with
          | |- context [match ?o with Some _ => _ | None => _ end] => destruct o
          end; py_unfold);
    try done; intros [= <-]; by eexists.
Qed.

Lemma np_getitem_elem_of (a : list L) (i : Z) (x : L) :
  np_getitem a i = Returned x → x ∈ a.
Proof.
  unfold np_getitem.
  destruct (if _ && _ then _ else None) as [y|] eqn:Hy; [|done].
  intros [= <-]. destruct (_ && _); [|done]. by eapply list_elem_of_lookup_2.
Qed.

Lemma community_pair_elem_of (communities : list L) (e : Edge) pair :
  CommunityGradient.community_pair communities e = Some pair →
  pair.1 ∈ communities ∧ pair.2 ∈ communities.
Proof.
  unfold CommunityGradient.community_pair, CommunityGradient.edge_pair. py_unfold.
  destruct (np_getitem communities (index_pair e).1) as [a|] eqn:Ha; py_unfold; [|done].
  destruct (np_getitem communities (index_pair e).2) as [b|] eqn:Hb; py_unfold; [|done].
  intros [= <-]. simpl. split; by eapply np_getitem_elem_of.
Qed.

End Groups.

(** X15. After [prepare_data] the group of a pair of communities holds,
    after what it held before, the geometries of the edges whose source
    node lies in the first community and whose target node lies in the
    second, in edge order, each with weight 1; the edges that run the other
    way are in the group of the reversed pair. *)
Theorem CommunityGradient_group_contents {L : Type} `{Countable L}
    (self : CommunityGradient.t L) :
  (∀ e, e ∈ CommunityGradient.data self →
     is_Some (ordered_pair (CommunityGradient.node_communities self) e)) →
  ∃ self' : CommunityGradient.t L,
    CommunityGradient.prepare_data self = (self', Returned tt)
    ∧ ∀ pair : L * L,
        let members := edges_of_pair (CommunityGradient.node_communities self) pair
                         (CommunityGradient.data self) in
        group_curves self' pair = group_curves self pair ++ (points <$> members)
        ∧ group_weights self' pair
          = group_weights self pair ++ replicate (length members) 1%Z.
Proof.
  intros Hvalid.
  destruct (CommunityGradient_loop_contents (CommunityGradient.data self) self)
    as (self' & Hloop & _ & _ & Hcont).
  { intros e He. rewrite community_pair_ordered. by apply Hvalid. }
  exists self'. split; [exact Hloop | exact Hcont].
Qed.

Lemma CommunityGradient_group_contents_witness :
  let communities := ["A"; "B"]%string in
  let one_way := {| edge_data := [curved_edge; straight_edge 1 0; straight_edge 0 1];
                    edge_properties := ∅; betweenness_values := [] |} in
  let self := CommunityGradient.__init__ one_way communities in
  edges_of_pair communities ("A", "B")%string (edge_data one_way)
  = [curved_edge; straight_edge 0 1]
  ∧ edges_of_pair communities ("B", "A")%string (edge_data one_way) = [straight_edge 1 0]
  ∧ ∃ self' : CommunityGradient.t string,
      CommunityGradient.prepare_data self = (self', Returned tt)
      ∧ ∀ pair : string * string,
          let members := edges_of_pair (CommunityGradient.node_communities self) pair
                           (CommunityGradient.data self) in
          group_curves self' pair = group_curves self pair ++ (points <$> members)
          ∧ group_weights self' pair
            = group_weights self pair ++ replicate (length members) 1%Z.
Proof.
  intros communities one_way self.
  split; [reflexivity|]. split; [reflexivity|].
  apply (CommunityGradient_group_contents self).
  intros e He. vm_compute in He.
  apply elem_of_cons in He as [->|He]; [by eexists|].
  apply elem_of_cons in He as [->|He]; [by eexists|].
  apply elem_of_cons in He as [->|He]; [by eexists|].
  by apply elem_of_nil in He.
Defined.

(** X16. A node index out of the range of [node_communities] stops
    [prepare_data] with IndexError at that edge; the edges before it have
    been added to their groups and stay there. *)
Theorem CommunityGradient_bad_index {L : Type} `{Countable L}
    (self : CommunityGradient.t L) (done_edges rest : list Edge) (e : Edge) :
  CommunityGradient.data self = done_edges ++ e :: rest →
  (∀ e', e' ∈ done_edges →
     is_Some (CommunityGradient.community_pair (CommunityGradient.node_communities self) e')) →
  CommunityGradient.community_pair (CommunityGradient.node_communities self) e = None →
  ∃ (self' : CommunityGradient.t L) (msg : string),
    CommunityGradient.prepare_data self = (self', Raised (IndexError msg))
    ∧ ∀ pair : L * L,
        group_curves self' pair
        = group_curves self pair
          ++ (points <$> edges_of_pair (CommunityGradient.node_communities self) pair
                           done_edges).
Proof.
  intros Hdata Hvalid Hbad.
  destruct (CommunityGradient_loop_contents done_edges self Hvalid)
    as (self' & Hloop & Hc & _ & Hcont).
  unfold CommunityGradient.community_pair in Hbad.
  destruct (CommunityGradient.edge_pair (CommunityGradient.node_communities self) e)
    as [?|x] eqn:Hrun; [done|].
  destruct (edge_pair_raised _ _ _ Hrun) as [msg ->].
  exists self', msg. split; [|intros pair; apply Hcont].
  assert (CommunityGradient.prepare_data self
          = for_each (λ edge_data,
                s ← get ;
                pair ← lift (CommunityGradient.edge_pair
                               (CommunityGradient.node_communities s) edge_data) ;
                CommunityGradient.links_add_curve pair (points edge_data) 1)
              (CommunityGradient.data self) self) as -> by reflexivity.
  rewrite Hdata, for_each_app, Hloop. simpl for_each. py_unfold.
  rewrite Hc, Hrun. reflexivity.
Qed.

Lemma CommunityGradient_bad_index_witness :
  let self := CommunityGradient.__init__ four_edges ["A"; "B"]%string in
  ∃ (self' : CommunityGradient.t string) (msg : string),
    CommunityGradient.prepare_data self = (self', Raised (IndexError msg))
    ∧ ∀ pair : string * string,
        group_curves self' pair
        = group_curves self pair
          ++ (points <$> edges_of_pair (CommunityGradient.node_communities self) pair
                           [straight_edge 0 1]).
Proof.
  intros self.
  apply (CommunityGradient_bad_index self [straight_edge 0 1]
           [straight_edge 2 3; straight_edge 3 0] (straight_edge 1 2)).
  - reflexivity.
  - intros e' He'. apply list_elem_of_singleton in He' as ->. by eexists.
  - reflexivity.
Defined.

(** ** CommunityGradient: the community ids and their colours *)

Section Ids.
Context {L : Type} {EqL : EqDecision L} {CountL : Countable L}.

Lemma elem_of_unique_from (seen : gset L) (items : list L) (x : L) :
  x ∈ CommunityGradient.unique_from seen items ↔ x ∈ items ∧ x ∉ seen.
Proof.
  revert seen. induction items as [|y items IH]; intros seen; simpl.
  - split; [by intros ?%elem_of_nil | by intros [?%elem_of_nil _]].
  - destruct (decide (y ∈ seen)) as [Hy|Hy].
    + rewrite IH, elem_of_cons. split; [tauto|].
      intros [[->|Hx] Hs]; [done | by split].
    + rewrite !elem_of_cons, IH, elem_of_union, elem_of_singleton. split.
      * intros [->|[Hx Hs]]; [by split; [left|] | split; [by right | tauto]].
      * intros [[->|Hx] Hs]; [by left|].
        destruct (decide (x = y)) as [->|Hne]; [by left | right; tauto].
Qed.

Lemma NoDup_unique_from (seen : gset L) (items : list L) :
  NoDup (CommunityGradient.unique_from seen items).
Proof.
  revert seen. induction items as [|y items IH]; intros seen; simpl.
  - constructor.
  - destruct (decide (y ∈ seen)); [apply IH|].
    constructor; [|apply IH].
    rewrite elem_of_unique_from, elem_of_union, elem_of_singleton. tauto.
Qed.

Context (le : relation L) `{!∀ x y, Decision (le x y)}.

Lemma elem_of_community_ids (communities : list L) (x : L) :
  x ∈ CommunityGradient.community_ids le communities ↔ x ∈ communities.
Proof.
  unfold CommunityGradient.community_ids, CommunityGradient.unique.
  rewrite merge_sort_Permutation, elem_of_unique_from.
  split; [by intros [? _] | intros ?; split; [done | apply not_elem_of_empty]].
Qed.

Lemma NoDup_community_ids (communities : list L) :
  NoDup (CommunityGradient.community_ids le communities).
Proof.
  unfold CommunityGradient.community_ids, CommunityGradient.unique.
  rewrite merge_sort_Permutation. apply NoDup_unique_from.
Qed.

(** The keys of [community_links] that the loop of [prepare_data] adds are
    pairs of labels of [node_communities], whether it returns or raises. *)
Lemma CommunityGradient_loop_keys (es : list Edge) (self self' : CommunityGradient.t L)
    (r : outcome unit) :
  for_each (λ edge_data,
      s ← get ;
      pair ← lift (CommunityGradient.edge_pair
                     (CommunityGradient.node_communities s) edge_data) ;
      CommunityGradient.links_add_curve pair (points edge_data) 1) es self
  = (self', r) →
  ∀ pair : L * L,
    is_Some (CommunityGradient.community_links self' !! pair) →
    is_Some (CommunityGradient.community_links self !! pair)
    ∨ (pair.1 ∈ CommunityGradient.node_communities self
       ∧ pair.2 ∈ CommunityGradient.node_communities self).
Proof.
  revert self. induction es as [|e es IH]; intros self.
  - simpl. intros [= <- <-] pair Hp. by left.
  - simpl for_each. py_unfold.
    destruct (CommunityGradient.edge_pair (CommunityGradient.node_communities self) e)
      as [pr|x] eqn:Hrun; py_unfold.
    + intros Hloop pair Hp.
      destruct (IH _ Hloop pair Hp) as [Hin|Hin]; [|by right].
      unfold CommunityGradient.add_to_links in Hin. simpl in Hin.
      destruct (decide (pr = pair)) as [->|Hne].
      * right. apply (community_pair_elem_of _ e).
        unfold CommunityGradient.community_pair. by rewrite Hrun.
      * left. by rewrite lookup_insert_ne in Hin.
    + intros [= <- <-] pair Hp. by left.
Qed.

(** [dict(pairs)] with keys that differ from one another. *)
Lemma dict_of_from_absent {V} (pairs : list (L * V)) (d : gmap L V) (x : L) :
  x ∉ pairs.*1 → foldl (λ d kv, <[kv.1 := kv.2]> d) d pairs !! x = d !! x.
Proof.
  revert d. induction pairs as [|[k v] pairs IH]; intros d Hx; simpl; [done|].
  rewrite fmap_cons, not_elem_of_cons in Hx. destruct Hx as [Hne Hx].
  rewrite IH by done. simpl in *. by rewrite lookup_insert_ne.
Qed.

Lemma dict_of_from_present {V} (pairs : list (L * V)) (d : gmap L V) (x : L) (v : V) :
  NoDup pairs.*1 → (x, v) ∈ pairs →
  foldl (λ d kv, <[kv.1 := kv.2]> d) d pairs !! x = Some v.
Proof.
  revert d. induction pairs as [|[k w] pairs IH]; intros d Hnd Hx; simpl.
  - by apply elem_of_nil in Hx.
  - rewrite fmap_cons in Hnd. apply NoDup_cons in Hnd as [Hk Hnd].
    apply elem_of_cons in Hx as [[= -> ->]|Hx].
    + rewrite dict_of_from_absent by done. simpl. by rewrite lookup_insert_eq.
    + by apply IH.
Qed.

Lemma dict_of_zip_lookup {V} (keys : list L) (values : list V) (i : nat) (x : L) (v : V) :
  NoDup keys → (length keys ≤ length values)%nat →
  keys !! i = Some x → values !! i = Some v →
  dict_of (zip keys values) !! x = Some v.
Proof.
  intros Hnd Hlen Hx Hv. unfold dict_of. apply dict_of_from_present.
  - by rewrite fst_zip.
  - apply (list_elem_of_lookup_2 (zip keys values) i).
    rewrite lookup_zip_with, Hx. simpl. by rewrite Hv.
Qed.

End Ids.

(** X17. [community_ids] holds every community label of [node_communities] once,
    and no other; for labels with a total order it is sorted, each id
    coming before all later ones. *)
Theorem CommunityGradient_community_ids {L : Type} `{Countable L}
    (le : relation L) `{!∀ x y, Decision (le x y)} (communities : list L) :
  Transitive le → Total le →
  let ids := CommunityGradient.community_ids le communities in
  StronglySorted le ids ∧ NoDup ids ∧ ∀ x : L, x ∈ ids ↔ x ∈ communities.
Proof.
  intros Htrans Htotal ids. subst ids. split; [|split].
  - unfold CommunityGradient.community_ids. by apply StronglySorted_merge_sort.
  - apply NoDup_community_ids.
  - apply elem_of_community_ids.
Qed.

Lemma CommunityGradient_community_ids_witness :
  let ids := CommunityGradient.community_ids Z.le [2; 0; 2; 1]%Z in
  StronglySorted Z.le ids ∧ NoDup ids ∧ ∀ x : Z, x ∈ ids ↔ x ∈ [2; 0; 2; 1]%Z.
Proof.
  apply (CommunityGradient_community_ids Z.le [2; 0; 2; 1]%Z).
  - intros x y z. apply Z.le_trans.
  - intros x y. lia.
Defined.

(** X18. [render] finds a colour for both ends of every group: after
    [prepare_data] on a constructed instance, whether it returned or raised,
    and with a palette of one colour per community id, the source colour of
    a group is the palette entry at the rank of the source community among
    the ids, and likewise for the target; no lookup raises KeyError. *)
Theorem CommunityGradient_group_colours {L : Type} `{Countable L}
    (le : relation L) `{!∀ x y, Decision (le x y)} (label_repr : L → string)
    (net : Network) (communities : list L) (palette : list rgb) (pair : L * L) :
  let self := (CommunityGradient.prepare_data
                 (CommunityGradient.__init__ net communities)).1 in
  let ids := CommunityGradient.community_ids le communities in
  length palette = length ids →
  is_Some (CommunityGradient.community_links self !! pair) →
  ∃ (i j : nat) (c_source c_target : rgb),
    ids !! i = Some pair.1 ∧ palette !! i = Some c_source
    ∧ ids !! j = Some pair.2 ∧ palette !! j = Some c_target
    ∧ CommunityGradient.pair_colors label_repr
        (CommunityGradient.community_colors ids palette) pair
      = Ok (c_source, c_target).
Proof.
  intros self ids Hlen Hkey. subst self ids.
  assert (pair.1 ∈ communities ∧ pair.2 ∈ communities) as [H1 H2].
  { destruct (CommunityGradient.prepare_data (CommunityGradient.__init__ net communities))
      as [self r] eqn:Hrun.
    destruct (CommunityGradient_loop_keys _ _ _ _ Hrun pair Hkey) as [Hin|Hin]; [|done].
    simpl in Hin. rewrite lookup_empty in Hin. by destruct Hin. }
  apply (elem_of_community_ids le) in H1, H2.
  apply list_elem_of_lookup_1 in H1 as [i Hi]. apply list_elem_of_lookup_1 in H2 as [j Hj].
  assert (is_Some (palette !! i)) as [c1 Hc1]
    by (apply lookup_lt_is_Some; rewrite Hlen; by eapply lookup_lt_Some).
  assert (is_Some (palette !! j)) as [c2 Hc2]
    by (apply lookup_lt_is_Some; rewrite Hlen; by eapply lookup_lt_Some).
  exists i, j, c1, c2. repeat (split; [done|]).
  unfold CommunityGradient.pair_colors, CommunityGradient.community_colors, dict_getitem.
  rewrite (dict_of_zip_lookup _ _ i pair.1 c1), (dict_of_zip_lookup _ _ j pair.2 c2);
    try done; try apply NoDup_community_ids; try lia.
Qed.

Lemma CommunityGradient_group_colours_witness :
  let self := (CommunityGradient.prepare_data
                 (CommunityGradient.__init__ two_way [7; 3]%Z)).1 in
  let ids := CommunityGradient.community_ids Z.le [7; 3]%Z in
  let palette : list rgb := [(0, 0, 1); (1, 0, 0)]%Q in
  ∃ (i j : nat) (c_source c_target : rgb),
    ids !! i = Some 7%Z ∧ palette !! i = Some c_source
    ∧ ids !! j = Some 3%Z ∧ palette !! j = Some c_target
    ∧ CommunityGradient.pair_colors pretty
        (CommunityGradient.community_colors ids palette) (7%Z, 3%Z)
      = Ok (c_source, c_target).
Proof.
  intros self ids palette.
  apply (CommunityGradient_group_colours Z.le pretty two_way [7; 3]%Z palette (7%Z, 3%Z)).
  - reflexivity.
  - by eexists.
Defined.
